(** * Compatibility scoring and discovery/recommendation engine

    Shallow embedding of
      - [src/app/services/matching.py]
          ([calculate_compatibility_score], [haversine_distance],
           [get_recommendations]),
      - [src/app/routers/discovery.py]       ([get_discovery]),
      - [src/app/routers/recommendations.py]
          ([get_user_recommendations], [get_compatibility_with_user]),
      - [src/app/routers/matches.py]
          ([get_other_user_id], [get_user_matches], [get_match]).

    Conventions of the embedding.
      - Python floats are read as real numbers ([R]); [int / int] is real
        division of the injected integers.
      - Python sets are [gset]s, dict-shaped rows whose key presence is
        tested ([field in row]) are [gmap]s, the other rows are records.
      - A read through the database client either answers or raises
        ([outcome]).  The functions are written over a [Store], whose
        [.single()] reads answer with [.data] being a row or nothing
        ([option]), which is what the source tests with
        [if not resp.data] / [if row1 and row2].  The client itself
        raises when [.single()] does not select exactly one row
        ([single]); [store_of] gives the answers of the client over a
        database, and there a missing row is an exception, never an
        answer without data.
      - [try ... except] is written with [catch].
      - Functions of other libraries that the routers call ([geodesic],
        [round], the response object's [extend], the texts of the
        exceptions of the schema classes) are parameters. *)

From Stdlib Require Import Reals Lra Lia ZArith List Permutation Sorted.
From stdpp Require Import base gmap strings list fin_sets sorting.

#[local] Open Scope R_scope.

(* ===================================================================== *)
(** ** Exceptions and results *)
(* ===================================================================== *)

(** The two kinds of exception the handlers tell apart:
    [except HTTPException: raise] versus [except Exception as e]. *)
Inductive exn : Type :=
| HTTPException (status_code : Z) (detail : string)
| Exception (msg : string).

Inductive outcome (A : Type) : Type :=
| Ok (a : A)
| Raise (e : exn).
Arguments Ok {A} a.
Arguments Raise {A} e.

(** Sequencing, written [x ← m; k] below. *)
#[global] Instance outcome_bind : MBind outcome := λ A B k m,
  match m with
  | Ok a => k a
  | Raise e => Raise e
  end.

(** [try: m except: h] *)
Definition catch {A : Type} (m : outcome A) (h : exn -> outcome A) : outcome A :=
  match m with
  | Ok a => Ok a
  | Raise e => h e
  end.

(** [for x in l: ...] where the body may raise and otherwise updates an
    accumulator. *)
Fixpoint for_each {A Acc : Type} (l : list A) (body : A -> Acc -> outcome Acc)
  (s : Acc) : outcome Acc :=
  match l with
  | [] => Ok s
  | x :: l' => s' ← body x s; for_each l' body s'
  end.

(* ===================================================================== *)
(** ** Rows of the store *)
(* ===================================================================== *)

Definition user_id := string.

(** A nullable categorical column (JSON null or a string). *)
Definition field_value := option string.

(** [user_lifestyle] and [user_goals] rows: the scorer tests key presence,
    so they stay dictionaries. *)
Abbreviation prefs_row := (gmap string field_value).

(** [users] row.  [values] is [None] when the key is missing or null
    ([user.get("values", []) or []]); [age] likewise ([usr.get("age")]);
    the joined coordinate may be null. *)
Record user_row : Type := {
  id : user_id;
  email : string;
  age : option Z;
  gender : option string;
  traits : option (list string);
  values : option (list string);
  green_flags : option (list string);
  red_flags : option (list string);
  lifestyle : option (list string);
  created_at : string;
  latitude : option R;
  longitude : option R
}.

Record location_row : Type := {
  loc_latitude : R;
  loc_longitude : R
}.

(** [user_filters] row; a field is [None] when the key is absent, so that
    [filters.get(k, default)] yields the default. *)
Record filters_row : Type := {
  min_age : option Z;
  max_age : option Z;
  max_distance_km : option R
}.

Record block_row : Type := {
  blocker_id : user_id;
  blocked_id : user_id;
  block_deleted_at : option string
}.

Record match_row : Type := {
  user1 : user_id;
  user2 : user_id;
  match_deleted_at : option string
}.

Record report_row : Type := {
  reporter_id : user_id;
  reported_id : user_id;
  report_deleted_at : option string
}.

(** What the database client answers to the reads of the three modules.
    A read either returns or raises.
      - [users_single u]: [users.select("*").eq("id", u).single()], and
        likewise [user_locations], [user_lifestyle], [user_goals] and
        [user_filters] with [.eq("user_id", u).single()]; the answer is the
        [.data] of the response, a row or nothing.
      - [user_interests u]: the [interest_id] column of
        [user_interests.select("interest_id").eq("user_id", u)].
      - [verified_users]: [users...eq("is_verified", True)
        .is_("deleted_at", None)], the pool of candidates, each row with
        the columns the three feeds select (coordinates joined in).
      - [user_blocks], [matches], [abuse_reports]: the rows of the table;
        the [eq] / [or_] / [is_] filters of each read are applied by the
        [select_...] functions below. *)
Record Store : Type := {
  users_single : user_id -> outcome (option user_row);
  user_interests : user_id -> outcome (list string);
  user_locations : user_id -> outcome (option location_row);
  user_lifestyle : user_id -> outcome (option prefs_row);
  user_goals : user_id -> outcome (option prefs_row);
  user_filters : user_id -> outcome (option filters_row);
  verified_users : outcome (list user_row);
  user_blocks : outcome (list block_row);
  matches : outcome (list match_row);
  abuse_reports : outcome (list report_row)
}.

(** Truthiness of a dictionary: non-empty. *)
Definition truthy_row (r : option prefs_row) : bool :=
  match r with
  | Some m => negb (bool_decide (m = ∅))
  | None => false
  end.

Definition is_null {A : Type} (o : option A) : bool :=
  match o with Some _ => false | None => true end.

(* ===================================================================== *)
(** ** matching.py : haversine_distance *)
(* ===================================================================== *)

(** [math.radians] *)
Definition radians (deg : R) : R := deg * PI / 180.

(** [math.atan2 y x] *)
Definition atan2 (y x : R) : R :=
  if Rlt_dec 0 x then atan (y / x)
  else if Rlt_dec x 0 then
    (if Rle_dec 0 y then atan (y / x) + PI else atan (y / x) - PI)
  else if Rlt_dec 0 y then PI / 2
  else if Rlt_dec y 0 then - PI / 2
  else 0.

Definition haversine_distance (lat1 lon1 lat2 lon2 : R) : R :=
  let R_earth := 6371 in
  let lat1_rad := radians lat1 in
  let lat2_rad := radians lat2 in
  let delta_lat := radians (lat2 - lat1) in
  let delta_lon := radians (lon2 - lon1) in
  let a := (sin (delta_lat / 2)) ^ 2
           + cos lat1_rad * cos lat2_rad * (sin (delta_lon / 2)) ^ 2 in
  let c := 2 * atan2 (sqrt a) (sqrt (1 - a)) in
  R_earth * c.

(* ===================================================================== *)
(** ** matching.py : calculate_compatibility_score *)
(* ===================================================================== *)

(** Lines 37-42 and 48-53 are the same statement with weights 40 and 30:
<<
    if s1 and s2:
        shared = len(s1 & s2)
        total = max(len(s1), len(s2))
        score = (shared / total) * W if total > 0 else 0
    else:
        score = 0
>> *)
Definition overlap_score (W : R) (s1 s2 : gset string) : R :=
  if negb (bool_decide (s1 = ∅)) && negb (bool_decide (s2 = ∅)) then
    let shared := size (s1 ∩ s2) in
    let total := Nat.max (size s1) (size s2) in
    if (0 <? total)%nat then INR shared / INR total * W else 0
  else 0.

(** Lines 60-70, inside the inner [try]. *)
Definition location_score_of (loc1 loc2 : option location_row) : R :=
  match loc1, loc2 with
  | Some l1, Some l2 =>
      let lat1 := loc_latitude l1 in
      let lon1 := loc_longitude l1 in
      let lat2 := loc_latitude l2 in
      let lon2 := loc_longitude l2 in
      let distance_km := haversine_distance lat1 lon1 lat2 lon2 in
      Rmax 0 ((1 - Rmin distance_km 30 / 30) * 15)
  | _, _ => 0
  end.

(** The loop of lines 84-88 (and 103-107): the pair is (matches, checks). *)
Fixpoint count_fields (fields_to_check : list string) (r1 r2 : prefs_row)
  (acc : nat * nat) : nat * nat :=
  match fields_to_check with
  | [] => acc
  | field :: rest =>
      let '(matches_, checks) := acc in
      match r1 !! field, r2 !! field with
      | Some v1, Some v2 =>
          let checks := S checks in
          let matches_ := if bool_decide (v1 = v2) then S matches_ else matches_ in
          count_fields rest r1 r2 (matches_, checks)
      | _, _ => count_fields rest r1 r2 (matches_, checks)
      end
  end.

(** Lines 78-91 with weight 10 and lines 97-110 with weight 5. *)
Definition fields_score (W : R) (fields_to_check : list string)
  (row1 row2 : option prefs_row) : R :=
  if truthy_row row1 && truthy_row row2 then
    match row1, row2 with
    | Some r1, Some r2 =>
        let '(matches_, checks) := count_fields fields_to_check r1 r2 (0%nat, 0%nat) in
        if (0 <? checks)%nat then INR matches_ / INR checks * W else 0
    | _, _ => 0
    end
  else 0.

Definition lifestyle_fields : list string :=
  ["smoking"; "drinking"; "diet"; "social_lifestyle"]%string.

Definition goals_fields : list string :=
  ["wants_kids"; "marriage_timeline"; "relationship_type"]%string.

Definition values_set (u : user_row) : gset string :=
  list_to_set (default [] (values u)).

(** The body of the outer [try] (lines 22-115). *)
Definition compatibility_body (st : Store) (user1_id user2_id : user_id)
  : outcome (R * R) :=
  user1 ← users_single st user1_id;
  user2 ← users_single st user2_id;
  match user1, user2 with
  | Some user1, Some user2 =>
      interests1 ← user_interests st user1_id;
      interests2 ← user_interests st user2_id;
      let interests1_set : gset string := list_to_set interests1 in
      let interests2_set : gset string := list_to_set interests2 in
      let interest_score := overlap_score 40 interests1_set interests2_set in
      let values_score := overlap_score 30 (values_set user1) (values_set user2) in
      location_score ←
        catch (loc1 ← user_locations st user1_id;
               loc2 ← user_locations st user2_id;
               Ok (location_score_of loc1 loc2))
              (fun _ => Ok 0);
      lifestyle1 ← user_lifestyle st user1_id;
      lifestyle2 ← user_lifestyle st user2_id;
      let lifestyle_score := fields_score 10 lifestyle_fields lifestyle1 lifestyle2 in
      goals1 ← user_goals st user1_id;
      goals2 ← user_goals st user2_id;
      let goals_score := fields_score 5 goals_fields goals1 goals2 in
      let total_score :=
        interest_score + values_score + location_score + lifestyle_score + goals_score in
      Ok (total_score, total_score)
  | _, _ => Ok (0, 0)
  end.

(** Never raises: [except Exception] returns (0.0, 0.0). *)
Definition calculate_compatibility_score (st : Store) (user1_id user2_id : user_id)
  : R * R :=
  match compatibility_body st user1_id user2_id with
  | Ok r => r
  | Raise _ => (0, 0)
  end.

(* ===================================================================== *)
(** ** Python helpers used by the three feeds *)
(* ===================================================================== *)

#[global] Instance Rle_decision (x y : R) : Decision (x <= y) := Rle_dec x y.
#[global] Instance Rlt_decision (x y : R) : Decision (x < y) := Rlt_dec x y.
#[global] Instance Req_decision : EqDecision R := Req_dec_T.

(** [l[start:stop]] with Python's clamping of both bounds. *)
Definition clamp_index (len i : Z) : Z :=
  if (i <? 0)%Z then Z.max 0 (i + len) else Z.min i len.

Definition py_slice {A : Type} (l : list A) (start stop : Z) : list A :=
  let len := Z.of_nat (length l) in
  let s := clamp_index len start in
  let e := clamp_index len stop in
  firstn (Z.to_nat (e - s)) (skipn (Z.to_nat s) l).

(** [l.sort(key=key, reverse=reverse)]: a stable sort; with [reverse=True]
    equal keys keep their original order as well. *)
Fixpoint insert_by {A : Type} (before : A -> A -> bool) (x : A) (l : list A)
  : list A :=
  match l with
  | [] => [x]
  | y :: l' => if before x y then x :: y :: l' else y :: insert_by before x l'
  end.

Definition py_sort {A : Type} (key : A -> R) (reverse : bool) (l : list A)
  : list A :=
  foldr (insert_by (fun x y =>
                      if reverse then bool_decide (key y <= key x)
                      else bool_decide (key x <= key y))) [] l.

(** [a or b] on JSON strings ([None] and the empty string are falsy).
    Sets of ids read from rows are sets of such values, hence
    [gset (option string)]; an id [i] is looked up as [Some i]. *)
Definition py_or (a b : option string) : option string :=
  match a with
  | Some s => if bool_decide (s = ""%string) then b else a
  | None => b
  end.

(** [float(x)] on a nullable number. *)
Definition py_float (x : option R) : outcome R :=
  match x with
  | Some r => Ok r
  | None => Raise (Exception "float() argument must be a string or a real number, not 'NoneType'")
  end.

(** Truthiness of nullable numbers ([None] and zero are falsy). *)
Definition truthy_int (x : option Z) : bool :=
  match x with Some z => negb (z =? 0)%Z | None => false end.

Definition truthy_float (x : option R) : bool :=
  match x with Some r => negb (bool_decide (r = 0)) | None => false end.

(** The response dictionary of both routers. *)
Record page (A : Type) : Type := {
  data : list A;
  total : Z;
  limit : Z;
  offset : Z
}.
Arguments data {A} _.
Arguments total {A} _.
Arguments limit {A} _.
Arguments offset {A} _.

(** The relationship reads shared by the feeds. *)

(** [user_blocks.select("blocked_id").eq("blocker_id", uid).is_("deleted_at", None)] *)
Definition select_blocked (st : Store) (uid : user_id) : outcome (list user_id) :=
  rows ← user_blocks st;
  Ok (map blocked_id
        (List.filter (fun b => bool_decide (blocker_id b = uid) && is_null (block_deleted_at b))
           rows)).

(** [abuse_reports.select("reported_id").eq("reporter_id", uid).is_("deleted_at", None)] *)
Definition select_reported (st : Store) (uid : user_id) : outcome (list user_id) :=
  rows ← abuse_reports st;
  Ok (map reported_id
        (List.filter (fun r => bool_decide (reporter_id r = uid) && is_null (report_deleted_at r))
           rows)).

(** [matches.select("user1, user2").or_("user1.eq.uid,user2.eq.uid").is_("deleted_at", None)] *)
Definition select_matches (st : Store) (uid : user_id) : outcome (list match_row) :=
  rows ← matches st;
  Ok (List.filter (fun m => (bool_decide (user1 m = uid) || bool_decide (user2 m = uid))
                            && is_null (match_deleted_at m))
        rows).

(** A row of a one-column read of [matches]: what [m.get("user1")] and
    [m.get("user2")] give on it. *)
Record match_projection : Type := {
  get_user1 : option string;
  get_user2 : option string
}.

(** [matches.select("user2").eq("user1", uid).is_("deleted_at", None)] *)
Definition select_user2_of (st : Store) (uid : user_id)
  : outcome (list match_projection) :=
  rows ← matches st;
  Ok (map (fun m => {| get_user1 := None; get_user2 := Some (user2 m) |})
        (List.filter (fun m => bool_decide (user1 m = uid) && is_null (match_deleted_at m))
           rows)).

(** [matches.select("user1").eq("user2", uid).is_("deleted_at", None)] *)
Definition select_user1_of (st : Store) (uid : user_id)
  : outcome (list match_projection) :=
  rows ← matches st;
  Ok (map (fun m => {| get_user1 := Some (user1 m); get_user2 := None |})
        (List.filter (fun m => bool_decide (user2 m = uid) && is_null (match_deleted_at m))
           rows)).

(* ===================================================================== *)
(** ** matching.py : get_recommendations *)
(* ===================================================================== *)

Record recommendation : Type := {
  rec_id : user_id;
  rec_score : R;
  rec_match_percentage : R
}.

Definition get_recommendations_body (st : Store) (uid : user_id) (limit offset : Z)
  : outcome (list recommendation) :=
  user ← users_single st uid;
  if is_null user then Ok [] else
  filters ← user_filters st uid;
  all_users ← verified_users st;
  blocked ← select_blocked st uid;
  let blocked_ids : gset (option string) := list_to_set (map Some blocked) in
  matched ← select_matches st uid;
  let matched_ids : gset (option string) :=
    list_to_set
      (map (fun m => py_or (Some (user1 m)) (Some (user2 m)))
         (List.filter (fun m => negb (bool_decide (user1 m = uid))
                                && negb (bool_decide (user2 m = uid)))
            matched)) in
  reported ← select_reported st uid;
  let reported_ids : gset (option string) := list_to_set (map Some reported) in
  let excluded_ids : gset (option string) :=
    blocked_ids ∪ matched_ids ∪ reported_ids ∪ {[Some uid]} in
  let candidates :=
    List.filter
      (fun candidate =>
         if bool_decide (Some (id candidate) ∈ excluded_ids) then false
         else
           match filters with
           | Some filters =>
               if truthy_int (age candidate) then
                 let a := default 0%Z (age candidate) in
                 (default 18 (min_age filters) <=? a)%Z
                 && (a <=? default 50 (max_age filters))%Z
               else true
           | None => true
           end)
      all_users in
  let recommendations :=
    map (fun candidate =>
           let '(score, match_pct) := calculate_compatibility_score st uid (id candidate) in
           {| rec_id := id candidate; rec_score := score; rec_match_percentage := match_pct |})
      candidates in
  let recommendations := py_sort rec_score true recommendations in
  let paginated := py_slice recommendations offset (offset + limit) in
  Ok paginated.

(** [except Exception] returns the empty list. *)
Definition get_recommendations (st : Store) (uid : user_id) (limit offset : Z)
  : list recommendation :=
  match get_recommendations_body st uid limit offset with
  | Ok l => l
  | Raise _ => []
  end.

(* ===================================================================== *)
(** ** The two routers *)
(* ===================================================================== *)

(** [except HTTPException: raise] / [except Exception as e: raise
    HTTPException(status_code=500, detail=str(e))] *)
Definition http_errors {A : Type} (m : outcome A) : outcome A :=
  catch m (fun e =>
             match e with
             | HTTPException _ _ => Raise e
             | Exception msg => Raise (HTTPException 500 msg)
             end).

(** An entry of the discovery page: the candidate dictionary of lines
    47-57 and the [match_percentage] stored into it at line 74. *)
Record discovery_candidate : Type := {
  dc_id : user_id;
  dc_email : string;
  dc_traits : list string;
  dc_values : list string;
  dc_green_flags : list string;
  dc_red_flags : list string;
  dc_lifestyle : list string;
  dc_distance_km : R;
  dc_created_at : string
}.

Record discovery_item : Type := {
  di_candidate : discovery_candidate;
  di_match_percentage : R
}.

(** An entry of the recommendation page (lines 88-94).  The analytics
    task started at line 106 is fire-and-forget and leaves no trace in the
    response; it is not modelled. *)
Record recommendation_item : Type := {
  ri_id : user_id;
  ri_age : option Z;
  ri_gender : option string;
  ri_compatibility_score : R;
  ri_match_percentage : R
}.

(** The bounds both router signatures declare for the paging parameters,
    [limit: int = Query(20, ge=1, le=100)] and
    [offset: int = Query(0, ge=0)]; the framework rejects a request
    outside them before the handler runs. *)
Definition page_query_ok (limit offset : Z) : Prop :=
  (1 <= limit <= 100)%Z ∧ (0 <= offset)%Z.

Section Routers.

(** Library functions the routers call and the source does not define:
    [geopy.distance.geodesic(p, q).kilometers], the builtin
    [round(x, ndigits)], and whether the client's response object offers
    the [extend] method that line 63 of discovery.py calls on it (if it
    does not, the call raises AttributeError). *)
Variable geodesic_km : R * R -> R * R -> R.
Variable round_ : R -> Z -> R.
Variable response_has_extend : bool.

(* --------------------------------------------------------------------- *)
(** *** discovery.py : get_discovery *)
(* --------------------------------------------------------------------- *)

(** Lines 36-57, one turn of the loop. *)
Definition discovery_visit (uid : user_id) (user_lat user_lon : R) (distance_km : Z)
  (usr : user_row) (candidates : list discovery_candidate)
  : outcome (list discovery_candidate) :=
  if bool_decide (id usr = uid) then Ok candidates
  else
    target_lat ← py_float (latitude usr);
    target_lon ← py_float (longitude usr);
    let dist := geodesic_km (user_lat, user_lon) (target_lat, target_lon) in
    if bool_decide (IZR distance_km < dist) then Ok candidates
    else
      Ok (candidates ++
          [{| dc_id := id usr;
              dc_email := email usr;
              dc_traits := default [] (traits usr);
              dc_values := default [] (values usr);
              dc_green_flags := default [] (green_flags usr);
              dc_red_flags := default [] (red_flags usr);
              dc_lifestyle := default [] (lifestyle usr);
              dc_distance_km := round_ dist 1;
              dc_created_at := created_at usr |}]).

(** Lines 62-63: the response of the first read, extended with the rows
    of the second. *)
Definition discovery_matched_rows (st : Store) (uid : user_id)
  : outcome (list match_projection) :=
  matched_ids ← select_user2_of st uid;
  if response_has_extend then
    more ← select_user1_of st uid;
    Ok (matched_ids ++ more)
  else Raise (Exception "'APIResponse' object has no attribute 'extend'").

(** Lines 28-80: the candidates within reach, minus the excluded ones,
    scored and sorted; this is the list the source calls [filtered] when
    it reaches line 82. *)
Definition discovery_filtered (st : Store) (uid : user_id) (user_loc : location_row)
  (distance_km : Z) (sort_by : string) : outcome (list discovery_item) :=
  let user_lat := loc_latitude user_loc in
  let user_lon := loc_longitude user_loc in
  all_users ← verified_users st;
  candidates ← for_each all_users
                 (discovery_visit uid user_lat user_lon distance_km) [];
  blocked_ids ← select_blocked st uid;
  let blocked_set : gset (option string) := list_to_set (map Some blocked_ids) in
  matched_ids ← discovery_matched_rows st uid;
  let matched_set : gset (option string) :=
    list_to_set (map (fun m => py_or (get_user2 m) (get_user1 m)) matched_ids) in
  reported_ids ← select_reported st uid;
  let reported_set : gset (option string) := list_to_set (map Some reported_ids) in
  let filtered :=
    List.filter
      (fun c => negb (bool_decide (Some (dc_id c) ∈ blocked_set))
                && negb (bool_decide (Some (dc_id c) ∈ matched_set))
                && negb (bool_decide (Some (dc_id c) ∈ reported_set)))
      candidates in
  let filtered :=
    map (fun candidate =>
           let '(score, match_pct) :=
             calculate_compatibility_score st uid (dc_id candidate) in
           {| di_candidate := candidate;
              di_match_percentage := round_ match_pct 2 |})
      filtered in
  Ok (if bool_decide (sort_by = "compatibility"%string)
      then py_sort di_match_percentage true filtered
      else py_sort (fun x => dc_distance_km (di_candidate x)) false filtered).

Definition get_discovery (st : Store) (uid : user_id)
  (distance_km limit offset min_age max_age : Z) (sort_by : string)
  : outcome (page discovery_item) :=
  http_errors (
    user_loc ← user_locations st uid;
    match user_loc with
    | None => Raise (HTTPException 400 "User location not set")
    | Some user_loc =>
        filtered ← discovery_filtered st uid user_loc distance_km sort_by;
        let total_count := Z.of_nat (length filtered) in
        let paginated := py_slice filtered offset (offset + limit) in
        Ok {| data := paginated; total := total_count;
              limit := limit; offset := offset |}
    end).

(* --------------------------------------------------------------------- *)
(** *** recommendations.py : get_user_recommendations *)
(* --------------------------------------------------------------------- *)

(** [filters_resp.data if filters_resp.data else {}] *)
Definition no_filters : filters_row :=
  {| min_age := None; max_age := None; max_distance_km := None |}.

(** Lines 59-81, the test one turn of the loop makes. *)
Definition recommendation_keeps (excluded_ids : gset (option string))
  (filters : filters_row) (user_lat user_lon : R) (user_data : user_row) : bool :=
  if bool_decide (Some (id user_data) ∈ excluded_ids) then false
  else if truthy_int (age user_data)
          && negb ((default 18 (min_age filters) <=? default 0 (age user_data))%Z
                   && (default 0 (age user_data) <=? default 50 (max_age filters))%Z)
  then false
  else if truthy_float (latitude user_data) && truthy_float (longitude user_data)
  then
    let target_lat := default 0 (latitude user_data) in
    let target_lon := default 0 (longitude user_data) in
    let distance_km := haversine_distance user_lat user_lon target_lat target_lon in
    let max_distance := default 30 (max_distance_km filters) in
    negb (bool_decide (max_distance < distance_km))
  else true.

(** Lines 28-97: the candidates kept, scored and sorted; this is the list
    the source calls [recommendations] when it reaches line 100. *)
Definition recommendations_ranked (st : Store) (uid : user_id) (user_loc : location_row)
  : outcome (list recommendation_item) :=
  let user_lat := loc_latitude user_loc in
  let user_lon := loc_longitude user_loc in
  filters_resp ← user_filters st uid;
  let filters := default no_filters filters_resp in
  all_users ← verified_users st;
  blocked ← select_blocked st uid;
  let blocked_ids : gset (option string) := list_to_set (map Some blocked) in
  matched ← select_matches st uid;
  let matched_ids : gset (option string) :=
    list_to_set
      (map (fun m => if bool_decide (user1 m ≠ uid)
                     then Some (user1 m) else Some (user2 m))
         matched) in
  reported ← select_reported st uid;
  let reported_ids : gset (option string) := list_to_set (map Some reported) in
  let excluded_ids := blocked_ids ∪ matched_ids ∪ reported_ids ∪ {[Some uid]} in
  let candidates :=
    List.filter (recommendation_keeps excluded_ids filters user_lat user_lon)
      all_users in
  let recommendations :=
    map (fun candidate =>
           let '(score, match_pct) :=
             calculate_compatibility_score st uid (id candidate) in
           {| ri_id := id candidate;
              ri_age := age candidate;
              ri_gender := gender candidate;
              ri_compatibility_score := round_ score 2;
              ri_match_percentage := round_ match_pct 2 |})
      candidates in
  Ok (py_sort ri_compatibility_score true recommendations).

Definition get_user_recommendations (st : Store) (uid : user_id) (limit offset : Z)
  : outcome (page recommendation_item) :=
  http_errors (
    user_loc ← user_locations st uid;
    match user_loc with
    | None =>
        Raise (HTTPException 400 "Location not set. Please update your location first.")
    | Some user_loc =>
        recommendations ← recommendations_ranked st uid user_loc;
        let total_count := Z.of_nat (length recommendations) in
        let paginated := py_slice recommendations offset (offset + limit) in
        Ok {| data := paginated; total := total_count;
              limit := limit; offset := offset |}
    end).

End Routers.

(* ===================================================================== *)
(** ** matches.py *)
(* ===================================================================== *)

(** A row of [matches.select("*")]. *)
Record match_record : Type := {
  mr_id : string;
  mr_user1 : user_id;
  mr_user2 : user_id;
  mr_reveal_user1 : option bool;
  mr_reveal_user2 : option bool;
  mr_created_at : string;
  mr_deleted_at : option string
}.

(** [UserAnonymous] of schemas.py. *)
Record user_anonymous : Type := {
  ua_id : string;
  ua_traits : list string;
  ua_values : list string
}.

(** The dictionary both handlers of matches.py build; [get_match] leaves
    [distance_km] out. *)
Record match_response : Type := {
  mresp_id : string;
  mresp_other_user_id : user_id;
  mresp_other_user : user_anonymous;
  mresp_compatibility_score : R;
  mresp_match_percentage : R;
  mresp_both_revealed : option bool;
  mresp_distance_km : option R;
  mresp_created_at : string
}.

(** The reads of matches.py: those of the scorer ([ms_store]) and
      - [match_records]: the rows of [matches.select("*")], filtered by
        [select_user_matches] below;
      - [match_single i]: [matches.select("*").eq("id", i).single()];
      - [live_users_single u]: [users.select("id,traits,values")
        .eq("id", u).is_("deleted_at", None).single()]. *)
Record MatchesStore : Type := {
  ms_store : Store;
  match_records : outcome (list match_record);
  match_single : string -> outcome (option match_record);
  live_users_single : user_id -> outcome (option user_row)
}.

(** Lines 11-12. *)
Definition get_other_user_id (match_ : match_record) (uid : user_id) : user_id :=
  if bool_decide (mr_user1 match_ = uid) then mr_user2 match_ else mr_user1 match_.

(** [a and b] on nullable booleans. *)
Definition py_and (a b : option bool) : option bool :=
  match a with
  | Some true => b
  | _ => a
  end.

(** [x[key]] where [x] may be [None]. *)
Definition subscript {A : Type} (x : option A) : outcome A :=
  match x with
  | Some a => Ok a
  | None => Raise (Exception "'NoneType' object is not subscriptable")
  end.

(** [matches.select("*").or_("user1.eq.uid,user2.eq.uid").is_("deleted_at", None)] *)
Definition select_user_matches (ms : MatchesStore) (uid : user_id)
  : outcome (list match_record) :=
  rows ← match_records ms;
  Ok (List.filter (fun m => (bool_decide (mr_user1 m = uid) || bool_decide (mr_user2 m = uid))
                            && is_null (mr_deleted_at m))
        rows).

Section Matches.

(** Library parts: [geodesic(p, q).km], [round], the text [str(e)] of an
    [HTTPException], and the texts of the two errors that building a
    [UserAnonymous] from a row can raise (no row to unpack; a field that
    fails validation). *)
Variable geodesic_km : R * R -> R * R -> R.
Variable round_ : R -> Z -> R.
Variable str_of_http_exception : Z -> string -> string.
Variable not_a_mapping : string.
Variable validation_error : string.

(** [UserAnonymous] built from the unpacked row: [id: str],
    [traits: List[str]] and [values: List[str]] are required and not
    nullable. *)
Definition UserAnonymous (other_user : option user_row) : outcome user_anonymous :=
  match other_user with
  | None => Raise (Exception not_a_mapping)
  | Some row =>
      match traits row, values row with
      | Some t, Some v => Ok {| ua_id := id row; ua_traits := t; ua_values := v |}
      | _, _ => Raise (Exception validation_error)
      end
  end.

Definition str_exn (e : exn) : string :=
  match e with
  | Exception msg => msg
  | HTTPException status_code detail => str_of_http_exception status_code detail
  end.

(** [except Exception as e: raise HTTPException(status_code=400,
    detail=str(e))], the only handler of both functions. *)
Definition bad_request {A : Type} (m : outcome A) : outcome A :=
  catch m (fun e => Raise (HTTPException 400 (str_exn e))).

(** Lines 25-47, one turn of the loop. *)
Definition user_matches_visit (ms : MatchesStore) (uid : user_id) (my_lat my_lon : R)
  (distance_km : Z) (match_ : match_record) (result : list match_response)
  : outcome (list match_response) :=
  let other_user_id := get_other_user_id match_ uid in
  other_user ← live_users_single ms other_user_id;
  other_location ← user_locations (ms_store ms) other_user_id;
  other_location ← subscript other_location;
  let other_lat := loc_latitude other_location in
  let other_lon := loc_longitude other_location in
  let distance := geodesic_km (my_lat, my_lon) (other_lat, other_lon) in
  if bool_decide (distance <= IZR distance_km) then
    let '(score, match_pct) :=
      calculate_compatibility_score (ms_store ms) uid other_user_id in
    other_user ← UserAnonymous other_user;
    Ok (result ++
        [{| mresp_id := mr_id match_;
            mresp_other_user_id := other_user_id;
            mresp_other_user := other_user;
            mresp_compatibility_score := score;
            mresp_match_percentage := match_pct;
            mresp_both_revealed := py_and (mr_reveal_user1 match_) (mr_reveal_user2 match_);
            mresp_distance_km := Some (round_ distance 1);
            mresp_created_at := mr_created_at match_ |}])
  else Ok result.

Definition get_user_matches (ms : MatchesStore) (distance_km : Z) (uid : user_id)
  : outcome (list match_response) :=
  bad_request (
    matches ← select_user_matches ms uid;
    my_location ← user_locations (ms_store ms) uid;
    my_location ← subscript my_location;
    let my_lat := loc_latitude my_location in
    let my_lon := loc_longitude my_location in
    for_each matches (user_matches_visit ms uid my_lat my_lon distance_km) []).

Definition get_match (ms : MatchesStore) (match_id : string) (uid : user_id)
  : outcome match_response :=
  bad_request (
    resp ← match_single ms match_id;
    match_ ← subscript resp;
    if negb (bool_decide (uid = mr_user1 match_) || bool_decide (uid = mr_user2 match_))
    then Raise (HTTPException 403 "Unauthorized")
    else
      let other_user_id := get_other_user_id match_ uid in
      other_user ← users_single (ms_store ms) other_user_id;
      let '(score, match_pct) :=
        calculate_compatibility_score (ms_store ms) uid other_user_id in
      other_user ← UserAnonymous other_user;
      Ok {| mresp_id := mr_id match_;
            mresp_other_user_id := other_user_id;
            mresp_other_user := other_user;
            mresp_compatibility_score := score;
            mresp_match_percentage := match_pct;
            mresp_both_revealed := py_and (mr_reveal_user1 match_) (mr_reveal_user2 match_);
            mresp_distance_km := None;
            mresp_created_at := mr_created_at match_ |}).

End Matches.

(* ===================================================================== *)
(** ** recommendations.py : get_compatibility_with_user *)
(* ===================================================================== *)

(** The dictionary of lines 156-159. *)
Record compatibility_response : Type := {
  cr_compatibility_score : R;
  cr_match_percentage : R
}.

Section Compatibility.

(** [round], and the answer to the block probe of lines 139-142
    ([user_blocks.select("id").or_(..., ...).is_("deleted_at", None)
    .single()]) for a viewer and a candidate. *)
Variable round_ : R -> Z -> R.
Variable block_probe : user_id -> user_id -> outcome (option block_row).

(** The existence test of line 134 reads the candidate's [users] row by
    id, as [users_single] does.  The analytics task of lines 149-154 is
    started and not awaited; it takes no part in the answer. *)
Definition get_compatibility_with_user (st : Store) (candidate_id uid : user_id)
  : outcome compatibility_response :=
  http_errors (
    candidate ← users_single st candidate_id;
    if is_null candidate then Raise (HTTPException 404 "User not found")
    else
      blocked ← block_probe uid candidate_id;
      if negb (is_null blocked)
      then Raise (HTTPException 403 "Cannot view compatibility")
      else
        let '(score, match_pct) := calculate_compatibility_score st uid candidate_id in
        Ok {| cr_compatibility_score := round_ score 2;
              cr_match_percentage := round_ match_pct 2 |}).

End Compatibility.

(* ===================================================================== *)
(** ** The database client: [.single()] *)
(* ===================================================================== *)

(** What a healthy database holds, query by query: the rows each read of
    the three feeds selects before [.single()] or [.data] is applied
    ([db_users u] are the rows of [users] with id [u], [db_locations u]
    the rows of [user_locations] with [user_id] [u], and so on;
    [db_verified] is the pool of verified, non-deleted users). *)
Record Database : Type := {
  db_users : user_id -> list user_row;
  db_interests : user_id -> list string;
  db_locations : user_id -> list location_row;
  db_lifestyle : user_id -> list prefs_row;
  db_goals : user_id -> list prefs_row;
  db_filters : user_id -> list filters_row;
  db_verified : list user_row;
  db_blocks : list block_row;
  db_matches : list match_row;
  db_reports : list report_row
}.

Section Client.

(** Library part: the text of the error that [.single().execute()] raises
    when the query selects [n] rows, [n] other than 1. *)
Variable single_error : nat -> string.

(** [query.single().execute()]: the one selected row, and an exception
    when the query selects no row or several.  (The handlers of
    locations.py, lines 38-42, and of matches.py rely on the exception to
    detect a missing row.) *)
Definition single {A : Type} (rows : list A) : outcome (option A) :=
  match rows with
  | [row] => Ok (Some row)
  | _ => Raise (Exception (single_error (length rows)))
  end.

(** The answers the client gives over a database: a [.single()] read never
    answers with no data, it raises. *)
Definition store_of (db : Database) : Store :=
  {| users_single := fun u => single (db_users db u);
     user_interests := fun u => Ok (db_interests db u);
     user_locations := fun u => single (db_locations db u);
     user_lifestyle := fun u => single (db_lifestyle db u);
     user_goals := fun u => single (db_goals db u);
     user_filters := fun u => single (db_filters db u);
     verified_users := Ok (db_verified db);
     user_blocks := Ok (db_blocks db);
     matches := Ok (db_matches db);
     abuse_reports := Ok (db_reports db) |}.

End Client.

(* ===================================================================== *)
(** ** The factors as the specification words them *)
(* ===================================================================== *)

(** Set-overlap score: 0 if either set is empty, otherwise
    (|A ∩ B| / max(|A|, |B|)) * W. *)
Definition spec_set_overlap (A B : gset string) (W : R) : R :=
  if decide (A = ∅ ∨ B = ∅) then 0
  else INR (size (A ∩ B)) / INR (Nat.max (size A) (size B)) * W.

(** Location proximity: max(0, (1 - min(distance_km, 30) / 30) * 15) when
    both users have a coordinate, 0 otherwise. *)
Definition spec_location_proximity (c1 c2 : option location_row) : R :=
  match c1, c2 with
  | Some p, Some q =>
      let distance_km :=
        haversine_distance (loc_latitude p) (loc_longitude p)
          (loc_latitude q) (loc_longitude q) in
      Rmax 0 ((1 - Rmin distance_km 30 / 30) * 15)
  | _, _ => 0
  end.

(** Field-equality score: over the fields present in both records,
    (matches / fields_checked) * W if fields_checked > 0, else 0; 0 if
    either record is absent. *)
Definition spec_field_equality (a b : option prefs_row) (fields : list string)
  (W : R) : R :=
  match a, b with
  | Some ra, Some rb =>
      let checked := filter (fun f => is_Some (ra !! f) ∧ is_Some (rb !! f)) fields in
      let matching := filter (fun f => ra !! f = rb !! f) checked in
      if decide (0 < length checked)%nat
      then INR (length matching) / INR (length checked) * W
      else 0
  | _, _ => 0
  end.

(** The coordinate a user has on record, if the read yields one. *)
Definition recorded_coordinate (st : Store) (u : user_id) : option location_row :=
  match user_locations st u with
  | Ok c => c
  | Raise _ => None
  end.

(** What the scorer reads about one user besides the coordinate. *)
Record user_reads : Type := {
  ur_profile : user_row;
  ur_interests : list string;
  ur_lifestyle : option prefs_row;
  ur_goals : option prefs_row
}.

(** The store answers the scorer's reads about [u] with [d]: the profile
    exists, and the interest, lifestyle and goals reads return. *)
Definition reads (st : Store) (u : user_id) (d : user_reads) : Prop :=
  users_single st u = Ok (Some (ur_profile d)) ∧
  user_interests st u = Ok (ur_interests d) ∧
  user_lifestyle st u = Ok (ur_lifestyle d) ∧
  user_goals st u = Ok (ur_goals d).

(** What the literal reading of "identical users" asks for: the same
    interest set, the same values set, the same lifestyle record, the same
    goals record, and one coordinate recorded for both. *)
Definition identical_users (st : Store) (u1 u2 : user_id) : Prop :=
  ∃ d1 d2 c,
    reads st u1 d1 ∧ reads st u2 d2 ∧
    (list_to_set (ur_interests d1) : gset string) = list_to_set (ur_interests d2) ∧
    values_set (ur_profile d1) = values_set (ur_profile d2) ∧
    ur_lifestyle d1 = ur_lifestyle d2 ∧
    ur_goals d1 = ur_goals d2 ∧
    user_locations st u1 = Ok (Some c) ∧ user_locations st u2 = Ok (Some c).


(* ===================================================================== *)
(** ** The exclusion set as the specification words it *)
(* ===================================================================== *)

(** The rows of a relationship table (none if the read raises). *)
Definition table {A : Type} (t : outcome (list A)) : list A :=
  match t with
  | Ok rows => rows
  | Raise _ => []
  end.

(** The viewer has blocked [x]. *)
Definition has_blocked (st : Store) (viewer x : user_id) : Prop :=
  ∃ b, b ∈ table (user_blocks st) ∧
       blocker_id b = viewer ∧ blocked_id b = x ∧ block_deleted_at b = None.

(** The viewer shares a non-deleted match with [x], on either side. *)
Definition shares_match (st : Store) (viewer x : user_id) : Prop :=
  ∃ m, m ∈ table (matches st) ∧ match_deleted_at m = None ∧
       ((user1 m = viewer ∧ user2 m = x) ∨ (user2 m = viewer ∧ user1 m = x)).

(** The viewer has reported [x]. *)
Definition has_reported (st : Store) (viewer x : user_id) : Prop :=
  ∃ r, r ∈ table (abuse_reports st) ∧
       reporter_id r = viewer ∧ reported_id r = x ∧ report_deleted_at r = None.

(** The exclusion set of the viewer. *)
Definition excluded_for (st : Store) (viewer x : user_id) : Prop :=
  x = viewer ∨ has_blocked st viewer x ∨ shares_match st viewer x ∨
  has_reported st viewer x.


(** [E] holds exactly the exclusion set of the viewer (user ids being
    non-empty strings). *)
Definition is_exclusion_set (st : Store) (viewer : user_id) (E : gset (option string))
  : Prop :=
  ∀ x, x ≠ ""%string → (Some x ∈ E ↔ excluded_for st viewer x).

(** A row of the pool survives discovery: it is not excluded and lies
    within the radius asked for. *)
Definition discovery_survives (geodesic_km : R * R → R * R → R)
  (E : gset (option string)) (user_loc : location_row) (distance_km : Z)
  (usr : user_row) : bool :=
  negb (bool_decide (Some (id usr) ∈ E))
  && negb (bool_decide
             (IZR distance_km <
              geodesic_km (loc_latitude user_loc, loc_longitude user_loc)
                (default 0 (latitude usr), default 0 (longitude usr)))).

(* ===================================================================== *)
(** ** Concrete stores *)
(* ===================================================================== *)

Definition mk_user (i : user_id) (vals : list string) (lat lon : option R) : user_row :=
  {| id := i; email := ""; age := None; gender := None; traits := None;
     values := Some vals; green_flags := None; red_flags := None;
     lifestyle := None; created_at := ""; latitude := lat; longitude := lon |}.

(** A store that answers every read with nothing. *)
Definition empty_store : Store :=
  {| users_single := fun _ => Ok None;
     user_interests := fun _ => Ok [];
     user_locations := fun _ => Ok None;
     user_lifestyle := fun _ => Ok None;
     user_goals := fun _ => Ok None;
     user_filters := fun _ => Ok None;
     verified_users := Ok [];
     user_blocks := Ok [];
     matches := Ok [];
     abuse_reports := Ok [] |}.

Definition non_smoker : prefs_row := {[ "smoking"%string := Some "never"%string ]}.
Definition wants_children : prefs_row := {[ "wants_kids"%string := Some "yes"%string ]}.

(** Two pairs of look-alikes at the same place with the same values,
    lifestyle and goals: "ann" and "bea" both like hiking, "cy" and "dee"
    have no interests on record. *)
Definition twins_store : Store :=
  {| users_single := fun u =>
       if (String.eqb u "ann" || String.eqb u "bea" || String.eqb u "cy"
           || String.eqb u "dee")%bool
       then Ok (Some (mk_user u ["honesty"%string] (Some 10) (Some 20)))
       else Ok None;
     user_interests := fun u =>
       if (String.eqb u "ann" || String.eqb u "bea")%bool
       then Ok ["hiking"%string] else Ok [];
     user_locations := fun _ => Ok (Some {| loc_latitude := 10; loc_longitude := 20 |});
     user_lifestyle := fun _ => Ok (Some non_smoker);
     user_goals := fun _ => Ok (Some wants_children);
     user_filters := fun _ => Ok None;
     verified_users := Ok [];
     user_blocks := Ok [];
     matches := Ok [];
     abuse_reports := Ok [] |}.

Definition twin_reads (u : user_id) (interests : list string) : user_reads :=
  {| ur_profile := mk_user u ["honesty"%string] (Some 10) (Some 20);
     ur_interests := interests;
     ur_lifestyle := Some non_smoker;
     ur_goals := Some wants_children |}.

(** Viewer "vera" has a live match with "max"; "max" is a verified user;
    nobody is blocked or reported. *)
Definition matched_store : Store :=
  {| users_single := fun u => Ok (Some (mk_user u [] None None));
     user_interests := fun _ => Ok [];
     user_locations := fun _ => Ok (Some {| loc_latitude := 0; loc_longitude := 0 |});
     user_lifestyle := fun _ => Ok None;
     user_goals := fun _ => Ok None;
     user_filters := fun _ => Ok None;
     verified_users := Ok [mk_user "max" [] None None];
     user_blocks := Ok [];
     matches := Ok [{| user1 := "vera"; user2 := "max"; match_deleted_at := None |}];
     abuse_reports := Ok [] |}.

(** [matched_store] with a second verified user, "nia", who has no
    coordinate on record and no relationship with the viewer. *)
Definition feed_store : Store :=
  {| users_single := users_single matched_store;
     user_interests := user_interests matched_store;
     user_locations := user_locations matched_store;
     user_lifestyle := user_lifestyle matched_store;
     user_goals := user_goals matched_store;
     user_filters := user_filters matched_store;
     verified_users := Ok [mk_user "max" [] None None; mk_user "nia" [] None None];
     user_blocks := user_blocks matched_store;
     matches := matches matched_store;
     abuse_reports := abuse_reports matched_store |}.

(** [round(x, n)] and [geodesic] stand-ins for running the routers on the
    concrete stores. *)
Definition no_rounding (x : R) (ndigits : Z) : R := x.
Definition flat_distance (p q : R * R) : R := 0.

(** [twins_store] with a lifestyle read that raises. *)
Definition faulty_store : Store :=
  {| users_single := users_single twins_store;
     user_interests := user_interests twins_store;
     user_locations := user_locations twins_store;
     user_lifestyle := fun _ => Raise (Exception "connection reset");
     user_goals := user_goals twins_store;
     user_filters := user_filters twins_store;
     verified_users := verified_users twins_store;
     user_blocks := user_blocks twins_store;
     matches := matches twins_store;
     abuse_reports := abuse_reports twins_store |}.




(** Lifestyle records: the same non-smoker with one more column filled
    in, and a record with the four compared columns left null. *)
Definition non_smoker_no_drugs : prefs_row :=
  {[ "smoking"%string := Some "never"%string; "drugs"%string := Some "never"%string ]}.

Definition blank_lifestyle : prefs_row :=
  {[ "smoking"%string := None; "drinking"%string := None;
     "diet"%string := None; "social_lifestyle"%string := None ]}.


(** A user row with (empty) traits and values. *)
Definition mk_profile (i : user_id) : user_row :=
  {| id := i; email := ""; age := None; gender := None; traits := Some [];
     values := Some []; green_flags := None; red_flags := None;
     lifestyle := None; created_at := ""; latitude := None; longitude := None |}.

Definition vera_max : match_record :=
  {| mr_id := "m1"; mr_user1 := "vera"; mr_user2 := "max";
     mr_reveal_user1 := Some true; mr_reveal_user2 := Some false;
     mr_created_at := "2024-01-01T00:00:00"; mr_deleted_at := None |}.

(** "vera" and "max" are matched (row "m1"); every user has a profile
    and is located at (50, 8). *)
Definition couple_matches : MatchesStore :=
  {| ms_store :=
       {| users_single := fun u => Ok (Some (mk_profile u));
          user_interests := fun _ => Ok [];
          user_locations := fun _ =>
            Ok (Some {| loc_latitude := 50; loc_longitude := 8 |});
          user_lifestyle := fun _ => Ok None;
          user_goals := fun _ => Ok None;
          user_filters := fun _ => Ok None;
          verified_users := Ok [];
          user_blocks := Ok [];
          matches := Ok [];
          abuse_reports := Ok [] |};
     match_records := Ok [vera_max];
     match_single := fun i => if String.eqb i "m1" then Ok (Some vera_max) else Ok None;
     live_users_single := fun u => Ok (Some (mk_profile u)) |}.


(** A stand-in for the text of an [HTTPException] in matches.py. *)
Definition detail_only (status_code : Z) (detail : string) : string := detail.

(** *** Databases *)

(** The scenario of the specification as rows: "V" at (0, 0) with
    interests A, B, C and values X, Y; "U" at (0, 0.27) with interests
    A, B and value X; no lifestyle, goals or filter row for anybody. *)
Definition scenario_db : Database :=
  {| db_users := fun u =>
       if String.eqb u "V" then [mk_user "V" ["X"; "Y"]%string None None]
       else if String.eqb u "U" then [mk_user "U" ["X"]%string None None]
       else [];
     db_interests := fun u =>
       if String.eqb u "V" then ["A"; "B"; "C"]%string
       else if String.eqb u "U" then ["A"; "B"]%string
       else [];
     db_locations := fun u =>
       if String.eqb u "V" then [{| loc_latitude := 0; loc_longitude := 0 |}]
       else if String.eqb u "U" then [{| loc_latitude := 0; loc_longitude := 27 / 100 |}]
       else [];
     db_lifestyle := fun _ => [];
     db_goals := fun _ => [];
     db_filters := fun _ => [];
     db_verified := [];
     db_blocks := [];
     db_matches := [];
     db_reports := [] |}.

(** The lifestyle and goals rows of a user: each carries its own
    [user_id] besides the compared columns. *)
Definition lifestyle_row_of (u : user_id) : prefs_row :=
  {[ "user_id"%string := Some u; "smoking"%string := Some "never"%string ]}.

Definition goals_row_of (u : user_id) : prefs_row :=
  {[ "user_id"%string := Some u; "wants_kids"%string := Some "yes"%string ]}.

(** "ann" and "bea": the same interest, the same value, the same place,
    lifestyle and goals rows that agree on every compared column. *)
Definition twins_db : Database :=
  {| db_users := fun u => [mk_user u ["honesty"%string] (Some 10) (Some 20)];
     db_interests := fun _ => ["hiking"%string];
     db_locations := fun _ => [{| loc_latitude := 10; loc_longitude := 20 |}];
     db_lifestyle := fun u => [lifestyle_row_of u];
     db_goals := fun u => [goals_row_of u];
     db_filters := fun _ => [];
     db_verified := [];
     db_blocks := [];
     db_matches := [];
     db_reports := [] |}.

Definition twin_rows (u : user_id) : user_reads :=
  {| ur_profile := mk_user u ["honesty"%string] (Some 10) (Some 20);
     ur_interests := ["hiking"%string];
     ur_lifestyle := Some (lifestyle_row_of u);
     ur_goals := Some (goals_row_of u) |}.

(** [twins_db] without any goals row. *)
Definition no_goals_db : Database :=
  {| db_users := db_users twins_db;
     db_interests := db_interests twins_db;
     db_locations := db_locations twins_db;
     db_lifestyle := db_lifestyle twins_db;
     db_goals := fun _ => [];
     db_filters := db_filters twins_db;
     db_verified := db_verified twins_db;
     db_blocks := db_blocks twins_db;
     db_matches := db_matches twins_db;
     db_reports := db_reports twins_db |}.

(** Viewer "vera" at (50, 8) with a saved filter row (18 to 50 years,
    30 km) and a live match with "max"; the verified users are "max" and
    "nia", at (50, 9). *)
Definition feed_db : Database :=
  {| db_users := fun u => [mk_user u [] None None];
     db_interests := fun _ => [];
     db_locations := fun u =>
       if String.eqb u "vera" then [{| loc_latitude := 50; loc_longitude := 8 |}]
       else [{| loc_latitude := 50; loc_longitude := 9 |}];
     db_lifestyle := fun _ => [];
     db_goals := fun _ => [];
     db_filters := fun u =>
       if String.eqb u "vera"
       then [{| min_age := Some 18%Z; max_age := Some 50%Z; max_distance_km := Some 30 |}]
       else [];
     db_verified := [mk_user "max" [] (Some 50) (Some 9); mk_user "nia" [] (Some 50) (Some 9)];
     db_blocks := [];
     db_matches := [{| user1 := "vera"; user2 := "max"; match_deleted_at := None |}];
     db_reports := [] |}.

(** [feed_db] without any location row. *)
Definition unlocated_db : Database :=
  {| db_users := db_users feed_db;
     db_interests := db_interests feed_db;
     db_locations := fun _ => [];
     db_lifestyle := db_lifestyle feed_db;
     db_goals := db_goals feed_db;
     db_filters := db_filters feed_db;
     db_verified := db_verified feed_db;
     db_blocks := db_blocks feed_db;
     db_matches := db_matches feed_db;
     db_reports := db_reports feed_db |}.

(** A stand-in for the text of the client's error. *)
Definition rows_found (n : nat) : string :=
  if Nat.eqb n 0 then "The result contains 0 rows" else "The result contains several rows".

(* ===================================================================== *)
(** ** Properties of the factors *)
(* ===================================================================== *)

Section Factors.

Implicit Types (A B : gset string) (W : R).

Lemma overlap_score_empty_l W B : overlap_score W ∅ B = 0.
Proof. unfold overlap_score. rewrite bool_decide_eq_true_2; done. Qed.

Lemma overlap_score_empty_r W A : overlap_score W A ∅ = 0.
Proof.
  unfold overlap_score. rewrite (bool_decide_eq_true_2 (∅ = ∅)) by done.
  by rewrite andb_false_r.
Qed.

Lemma max_size_pos A B : A ≠ ∅ → (0 < Nat.max (size A) (size B))%nat.
Proof.
  intros HA. assert (size A ≠ 0%nat) by (by rewrite size_empty_iff; intros ?%leibniz_equiv).
  lia.
Qed.

Lemma overlap_score_nonempty W A B :
  A ≠ ∅ → B ≠ ∅ →
  overlap_score W A B = INR (size (A ∩ B)) / INR (Nat.max (size A) (size B)) * W.
Proof.
  intros HA HB. unfold overlap_score.
  rewrite !bool_decide_eq_false_2 by done. simpl.
  pose proof (max_size_pos A B HA) as Hpos.
  apply Nat.ltb_lt in Hpos. by rewrite Hpos.
Qed.

Lemma overlap_score_spec W A B : overlap_score W A B = spec_set_overlap A B W.
Proof.
  unfold spec_set_overlap. destruct (decide (A = ∅ ∨ B = ∅)) as [[->| ->]|Hne].
  - apply overlap_score_empty_l.
  - apply overlap_score_empty_r.
  - apply overlap_score_nonempty; intros ->; apply Hne; auto.
Qed.

Lemma overlap_score_comm W A B : overlap_score W A B = overlap_score W B A.
Proof.
  unfold overlap_score.
  rewrite (andb_comm (negb (bool_decide (A = ∅)))).
  rewrite (Nat.max_comm (size A)).
  by rewrite (comm_L (∩) A B).
Qed.

Lemma div_nonneg (a b : R) : 0 <= a → 0 < b → 0 <= a / b.
Proof. intros Ha Hb. unfold Rdiv. by apply Rle_mult_inv_pos. Qed.

Lemma overlap_score_nonneg W A B : 0 <= W → 0 <= overlap_score W A B.
Proof.
  intros HW. unfold overlap_score.
  destruct (_ && _); [|lra].
  destruct (_ <? _)%nat eqn:Hlt; [|lra].
  apply Nat.ltb_lt in Hlt.
  apply Rmult_le_pos; [|done].
  apply div_nonneg; [apply pos_INR|]. by apply lt_0_INR.
Qed.

(** A shared ratio k/m with k <= m does not decrease when both grow by one. *)
Lemma ratio_succ_le (k m : nat) :
  (k <= m)%nat → (0 < m)%nat → INR k / INR m <= INR (S k) / INR (S m).
Proof.
  intros Hkm Hm. rewrite !S_INR.
  apply le_INR in Hkm. apply lt_0_INR in Hm.
  set (a := INR k) in *. set (b := INR m) in *.
  assert (0 <= a) by apply pos_INR.
  assert (Heq : (a + 1) / (b + 1) - a / b = (b - a) / (b * (b + 1))) by (field; lra).
  assert (0 <= (b - a) / (b * (b + 1))).
  { apply div_nonneg; [lra|]. apply Rmult_lt_0_compat; lra. }
  lra.
Qed.

Lemma size_add_shared A B (x : string) :
  x ∉ A → x ∉ B →
  size (({[x]} ∪ A) ∩ ({[x]} ∪ B)) = S (size (A ∩ B)) ∧
  size ({[x]} ∪ A) = S (size A) ∧ size ({[x]} ∪ B) = S (size B).
Proof.
  intros HA HB. split_and!.
  - replace (({[x]} ∪ A) ∩ ({[x]} ∪ B)) with ({[x]} ∪ (A ∩ B)) by set_solver.
    rewrite size_union by set_solver. by rewrite size_singleton.
  - rewrite size_union by set_solver. by rewrite size_singleton.
  - rewrite size_union by set_solver. by rewrite size_singleton.
Qed.

Lemma inter_size_le_max A B : (size (A ∩ B) <= Nat.max (size A) (size B))%nat.
Proof.
  assert (size (A ∩ B) <= size A)%nat by (apply subseteq_size; set_solver). lia.
Qed.

(** Haversine distance. *)

Lemma haversine_distance_sym lat1 lon1 lat2 lon2 :
  haversine_distance lat1 lon1 lat2 lon2 = haversine_distance lat2 lon2 lat1 lon1.
Proof.
  unfold haversine_distance, radians.
  assert (Hflip : ∀ p q, sin ((q - p) * PI / 180 / 2) ^ 2 = sin ((p - q) * PI / 180 / 2) ^ 2).
  { intros p q. replace ((q - p) * PI / 180 / 2) with (- ((p - q) * PI / 180 / 2)) by lra.
    rewrite sin_neg. ring. }
  rewrite (Hflip lat1 lat2), (Hflip lon1 lon2).
  by rewrite (Rmult_comm (cos (lat1 * PI / 180))).
Qed.

Lemma atan2_0_1 : atan2 0 1 = 0.
Proof.
  unfold atan2. destruct (Rlt_dec 0 1) as [_|Hn]; [|lra].
  replace (0 / 1) with 0 by lra. apply atan_0.
Qed.

Lemma haversine_distance_same lat lon : haversine_distance lat lon lat lon = 0.
Proof.
  unfold haversine_distance, radians.
  replace ((lat - lat) * PI / 180 / 2) with 0 by lra.
  replace ((lon - lon) * PI / 180 / 2) with 0 by lra.
  rewrite sin_0.
  replace (0 ^ 2 + cos (lat * PI / 180) * cos (lat * PI / 180) * 0 ^ 2) with 0 by ring.
  rewrite sqrt_0, Rminus_0_r, sqrt_1, atan2_0_1. ring.
Qed.

Lemma location_score_of_comm c1 c2 : location_score_of c1 c2 = location_score_of c2 c1.
Proof.
  destruct c1, c2; simpl; try done. by rewrite haversine_distance_sym.
Qed.

Lemma location_score_of_same c : location_score_of (Some c) (Some c) = 15.
Proof.
  simpl. rewrite haversine_distance_same.
  rewrite Rmin_left by lra. rewrite Rmax_right; lra.
Qed.

(** Field equality. *)

Lemma count_fields_spec fields (r1 r2 : prefs_row) (m c : nat) :
  count_fields fields r1 r2 (m, c) =
  let checked := filter (fun f => is_Some (r1 !! f) ∧ is_Some (r2 !! f)) fields in
  ((m + length (filter (fun f => r1 !! f = r2 !! f) checked))%nat,
   (c + length checked)%nat).
Proof.
  revert m c. induction fields as [|f fields IH]; intros m c; simpl.
  - f_equal; lia.
  - destruct (r1 !! f) as [v1|] eqn:H1, (r2 !! f) as [v2|] eqn:H2.
    + rewrite IH. simpl.
      rewrite (filter_cons_True _ f) by (rewrite H1, H2; eauto).
      case_bool_decide as Hv.
      * rewrite (filter_cons_True _ f) by (rewrite H1, H2; by subst). simpl.
        f_equal; lia.
      * rewrite (filter_cons_False _ f) by (rewrite H1, H2; congruence). simpl.
        f_equal; lia.
    + rewrite IH. simpl.
      rewrite (filter_cons_False _ f) by (rewrite H2; intros [_ []]; done). done.
    + rewrite IH. simpl.
      rewrite (filter_cons_False _ f) by (rewrite H1; intros [[] _]; done). done.
    + rewrite IH. simpl.
      rewrite (filter_cons_False _ f) by (rewrite H1; intros [[] _]; done). done.
Qed.

Lemma fields_score_spec W fields (a b : option prefs_row) :
  fields_score W fields a b = spec_field_equality a b fields W.
Proof.
  unfold fields_score, spec_field_equality.
  destruct a as [ra|], b as [rb|]; simpl; try done.
  - rewrite count_fields_spec. simpl.
    set (checked := filter _ fields).
    destruct (decide (0 < length checked)%nat) as [Hpos|Hz].
    + apply Nat.ltb_lt in Hpos as Hb. rewrite Hb.
      destruct (negb (bool_decide (ra = ∅)) && negb (bool_decide (rb = ∅))) eqn:Ht; [done|].
      exfalso.
      destruct checked as [|f checked'] eqn:Hc; [simpl in Hpos; lia|].
      assert (Hin : f ∈ filter (fun f => is_Some (ra !! f) ∧ is_Some (rb !! f)) fields).
      { fold checked. rewrite Hc. apply list_elem_of_here. }
      apply list_elem_of_filter in Hin as [[[v1 Hv1] [v2 Hv2]] _].
      apply andb_false_iff in Ht as [Ht|Ht];
        apply negb_false_iff, bool_decide_eq_true in Ht; subst;
        by rewrite lookup_empty in *.
    + assert (Hb : (0 <? length checked)%nat = false) by (apply Nat.ltb_ge; lia).
      rewrite Hb. by destruct (_ && _).
  - by destruct (negb _).
Qed.

Lemma count_fields_comm fields (r1 r2 : prefs_row) acc :
  count_fields fields r1 r2 acc = count_fields fields r2 r1 acc.
Proof.
  revert acc. induction fields as [|f fields IH]; intros [m c]; simpl; [done|].
  destruct (r1 !! f) as [v1|], (r2 !! f) as [v2|]; try apply IH.
  rewrite IH. do 2 f_equal.
  do 2 case_bool_decide; congruence.
Qed.

Lemma fields_score_comm W fields (a b : option prefs_row) :
  fields_score W fields a b = fields_score W fields b a.
Proof.
  unfold fields_score. rewrite (andb_comm (truthy_row a)).
  destruct a, b; try done. by rewrite count_fields_comm.
Qed.



(** Identical records that carry at least one of the checked fields agree
    on every checked field. *)
Lemma fields_score_same W fields (r : prefs_row) :
  (∃ f, f ∈ fields ∧ is_Some (r !! f)) →
  fields_score W fields (Some r) (Some r) = W.
Proof.
  intros (f & Hf & Hsome). rewrite fields_score_spec. unfold spec_field_equality.
  set (checked := filter _ fields).
  assert (Hin : f ∈ checked) by (apply list_elem_of_filter; auto).
  assert (Hall : filter (fun f => r !! f = r !! f) checked = checked).
  { clear. induction checked as [|g l IH]; [done|].
    rewrite filter_cons_True by done. by rewrite IH. }
  rewrite Hall.
  assert (Hpos : (0 < length checked)%nat).
  { destruct checked; [by apply elem_of_nil in Hin|simpl; lia]. }
  rewrite decide_True by done.
  apply lt_0_INR in Hpos. field. lra.
Qed.

Lemma overlap_score_self A W : A ≠ ∅ → overlap_score W A A = W.
Proof.
  intros HA. rewrite overlap_score_nonempty by done.
  replace (A ∩ A) with A by set_solver. rewrite Nat.max_id.
  assert (0 < INR (size A)).
  { apply lt_0_INR. assert (size A ≠ 0%nat); [|lia].
    by rewrite size_empty_iff; intros ?%leibniz_equiv. }
  field. lra.
Qed.

End Factors.

(* ===================================================================== *)
(** ** Slicing and sorting *)
(* ===================================================================== *)

Section Lists.
Context {A : Type}.
Implicit Types (l : list A) (x : A).

Lemma py_slice_page l (limit offset : Z) :
  (0 <= offset)%Z → (0 <= limit)%Z →
  py_slice l offset (offset + limit) =
  firstn (Z.to_nat limit) (skipn (Z.to_nat offset) l).
Proof.
  intros Ho Hl. unfold py_slice, clamp_index.
  set (len := Z.of_nat (length l)).
  assert (Hlen : (0 <= len)%Z) by (unfold len; lia).
  destruct (offset <? 0)%Z eqn:E1; [apply Z.ltb_lt in E1; lia|].
  destruct (offset + limit <? 0)%Z eqn:E2; [apply Z.ltb_lt in E2; lia|].
  destruct (Z_le_gt_dec len offset) as [Hge|Hlt].
  - rewrite (Z.min_r offset len) by lia.
    rewrite !skipn_all2 by (fold len; lia).
    by rewrite !firstn_nil.
  - rewrite (Z.min_l offset len) by lia.
    destruct (Z_le_gt_dec (offset + limit) len) as [Hin|Hout].
    + rewrite Z.min_l by lia. do 2 f_equal. lia.
    + rewrite Z.min_r by lia.
      assert (Hrest : length (skipn (Z.to_nat offset) l) = Z.to_nat (len - offset)).
      { rewrite length_skipn. unfold len. lia. }
      rewrite firstn_all2 by lia.
      rewrite firstn_all2; [done|]. rewrite Hrest. lia.
Qed.

Lemma py_slice_length l (limit offset : Z) :
  (0 <= offset)%Z → (0 <= limit)%Z → (offset < Z.of_nat (length l))%Z →
  Z.of_nat (length (py_slice l offset (offset + limit))) =
  Z.min limit (Z.of_nat (length l) - offset).
Proof.
  intros Ho Hl Hlt. rewrite py_slice_page by done.
  rewrite length_firstn, length_skipn. lia.
Qed.

Lemma py_slice_beyond l (limit offset : Z) :
  (0 <= offset)%Z → (0 <= limit)%Z → (Z.of_nat (length l) <= offset)%Z →
  py_slice l offset (offset + limit) = [].
Proof.
  intros Ho Hl Hge. rewrite py_slice_page by done.
  rewrite skipn_all2 by lia. apply firstn_nil.
Qed.

Lemma py_slice_subset l (start stop : Z) x :
  x ∈ py_slice l start stop → x ∈ l.
Proof.
  unfold py_slice. intros Hin.
  eapply elem_of_sublist; [|apply sublist_drop].
  eapply elem_of_sublist; [done|apply sublist_take].
Qed.

Lemma insert_by_perm (before : A → A → bool) x l :
  Permutation (insert_by before x l) (x :: l).
Proof.
  induction l as [|y l IH]; simpl; [done|].
  destruct (before x y); [done|].
  rewrite IH. apply perm_swap.
Qed.

Lemma py_sort_perm (key : A → R) reverse l : Permutation (py_sort key reverse l) l.
Proof.
  unfold py_sort. induction l as [|x l IH]; simpl; [done|].
  rewrite insert_by_perm. by constructor.
Qed.

Lemma py_sort_elem_of (key : A → R) reverse l x : x ∈ py_sort key reverse l ↔ x ∈ l.
Proof. by rewrite py_sort_perm. Qed.

Lemma filter_map_commute {B : Type} (f : A → B) (p : B → bool) l :
  List.filter p (map f l) = map f (List.filter (fun a => p (f a)) l).
Proof.
  induction l as [|a l IH]; simpl; [done|].
  destruct (p (f a)); simpl; by rewrite IH.
Qed.

Lemma filter_filter_andb (p q : A → bool) l :
  List.filter q (List.filter p l) = List.filter (fun a => p a && q a) l.
Proof.
  induction l as [|a l IH]; simpl; [done|].
  destruct (p a); simpl; [destruct (q a)|]; by rewrite IH.
Qed.

End Lists.

(* ===================================================================== *)
(** ** The scorer *)
(* ===================================================================== *)

Ltac unfold_bind := unfold mbind, outcome_bind, catch.

(** Closes [Ok (a, a) = Ok (b, b) ∧ (a, a) = (b, b)] when [a] and [b] are
    equal as ring expressions. *)
Ltac same_total :=
  match goal with
  | |- Ok (?a, ?a) = Ok (?b, ?b) ∧ _ =>
      let H := fresh in assert (a = b) as H by ring; rewrite H; split; reflexivity
  end.

(** With both profiles on record and the reads answered, the body of the
    scorer returns the five factors added up. *)
Lemma compatibility_body_reads st u1 u2 d1 d2 :
  reads st u1 d1 → reads st u2 d2 →
  compatibility_body st u1 u2 =
  Ok (let total_score :=
        overlap_score 40 (list_to_set (ur_interests d1)) (list_to_set (ur_interests d2))
        + overlap_score 30 (values_set (ur_profile d1)) (values_set (ur_profile d2))
        + location_score_of (recorded_coordinate st u1) (recorded_coordinate st u2)
        + fields_score 10 lifestyle_fields (ur_lifestyle d1) (ur_lifestyle d2)
        + fields_score 5 goals_fields (ur_goals d1) (ur_goals d2) in
      (total_score, total_score)).
Proof.
  intros (Hp1 & Hi1 & Hl1 & Hg1) (Hp2 & Hi2 & Hl2 & Hg2).
  unfold compatibility_body, recorded_coordinate. unfold_bind.
  rewrite Hp1, Hp2, Hi1, Hi2, Hl1, Hl2, Hg1, Hg2.
  destruct (user_locations st u1) as [c1|e1]; [|done].
  destruct (user_locations st u2) as [c2|e2]; [done|].
  by destruct c1.
Qed.

Lemma calculate_compatibility_score_reads st u1 u2 d1 d2 :
  reads st u1 d1 → reads st u2 d2 →
  calculate_compatibility_score st u1 u2 =
  (let total_score :=
     overlap_score 40 (list_to_set (ur_interests d1)) (list_to_set (ur_interests d2))
     + overlap_score 30 (values_set (ur_profile d1)) (values_set (ur_profile d2))
     + location_score_of (recorded_coordinate st u1) (recorded_coordinate st u2)
     + fields_score 10 lifestyle_fields (ur_lifestyle d1) (ur_lifestyle d2)
     + fields_score 5 goals_fields (ur_goals d1) (ur_goals d2) in
   (total_score, total_score)).
Proof.
  intros H1 H2. unfold calculate_compatibility_score.
  by rewrite (compatibility_body_reads _ _ _ _ _ H1 H2).
Qed.

(** An interests, lifestyle or goals read that raises (as a [.single()]
    read of the client does when it finds no row) is outside the inner
    [try] of the location block: it sends the scorer to its
    [except Exception] clause, which returns (0.0, 0.0). *)
Lemma raised_read_zeroes_score st u1 u2 p1 p2 e :
  users_single st u1 = Ok (Some p1) → users_single st u2 = Ok (Some p2) →
  user_interests st u1 = Raise e ∨ user_interests st u2 = Raise e ∨
  user_lifestyle st u1 = Raise e ∨ user_lifestyle st u2 = Raise e ∨
  user_goals st u1 = Raise e ∨ user_goals st u2 = Raise e →
  calculate_compatibility_score st u1 u2 = (0, 0).
Proof.
  intros Hp1 Hp2 Hraise.
  unfold calculate_compatibility_score, compatibility_body. unfold_bind.
  rewrite Hp1, Hp2.
  destruct (user_interests st u1) as [i1|]; [|done].
  destruct (user_interests st u2) as [i2|]; [|done].
  destruct (user_locations st u1) as [c1|];
    [destruct (user_locations st u2) as [c2|]|];
    (destruct (user_lifestyle st u1) as [l1|]; [|done]);
    (destruct (user_lifestyle st u2) as [l2|]; [|done]);
    (destruct (user_goals st u1) as [g1|]; [|done]);
    (destruct (user_goals st u2) as [g2|]; [|done]);
    naive_solver.
Qed.

(** X14: when both profile rows exist and the interests, lifestyle and
    goals reads are answered, [calculate_compatibility_score] returns,
    twice, the sum of exactly five factors: interest overlap with weight
    40, values overlap with weight 30, location proximity
    max(0, (1 - min(distance_km, 30)/30) * 15) when both have a coordinate
    and 0 otherwise, lifestyle field equality with weight 10 over smoking,
    drinking, diet, social_lifestyle, and goals field equality with weight
    5 over wants_kids, marriage_timeline, relationship_type. *)
Theorem X14_score_is_sum_of_five_factors st u1 u2 d1 d2 :
  reads st u1 d1 → reads st u2 d2 →
  calculate_compatibility_score st u1 u2 =
  (let interest_score :=
     spec_set_overlap (list_to_set (ur_interests d1)) (list_to_set (ur_interests d2)) 40 in
   let values_score :=
     spec_set_overlap (values_set (ur_profile d1)) (values_set (ur_profile d2)) 30 in
   let location_score :=
     spec_location_proximity (recorded_coordinate st u1) (recorded_coordinate st u2) in
   let lifestyle_score :=
     spec_field_equality (ur_lifestyle d1) (ur_lifestyle d2)
       ["smoking"; "drinking"; "diet"; "social_lifestyle"]%string 10 in
   let goals_score :=
     spec_field_equality (ur_goals d1) (ur_goals d2)
       ["wants_kids"; "marriage_timeline"; "relationship_type"]%string 5 in
   let total := interest_score + values_score + location_score
                + lifestyle_score + goals_score in
   (total, total)).
Proof.
  intros H1 H2. rewrite (calculate_compatibility_score_reads _ _ _ _ _ H1 H2).
  cbv zeta. rewrite !overlap_score_spec, !fields_score_spec. reflexivity.
Qed.

(** C6: swapping the two argument ids leaves both returned values
    unchanged, for every store and every pair of ids. *)
Theorem C6_score_symmetric st (a b : user_id) :
  calculate_compatibility_score st a b = calculate_compatibility_score st b a.
Proof.
  unfold calculate_compatibility_score, compatibility_body. unfold_bind.
  destruct (users_single st a) as [[pa|]|]; destruct (users_single st b) as [[pb|]|];
    try reflexivity.
  destruct (user_interests st a) as [ia|]; destruct (user_interests st b) as [ib|];
    try reflexivity.
  destruct (user_locations st a) as [ca|ea]; destruct (user_locations st b) as [cb|eb];
    destruct (user_lifestyle st a) as [la|]; destruct (user_lifestyle st b) as [lb|];
    try reflexivity;
    destruct (user_goals st a) as [ga|]; destruct (user_goals st b) as [gb|];
    try reflexivity;
    rewrite ?(overlap_score_comm _ (list_to_set ia)), ?(overlap_score_comm _ (values_set pa)),
      ?(location_score_of_comm ca), ?(fields_score_comm _ _ la), ?(fields_score_comm _ _ ga);
    reflexivity.
Qed.

(** C7: adding an element shared by both sets never decreases the
    set-overlap score, for any non-negative weight. *)
Theorem C7_overlap_monotone_in_shared_element (A B : gset string) (x : string) (W : R) :
  x ∉ A → x ∉ B → 0 <= W →
  overlap_score W A B <= overlap_score W ({[x]} ∪ A) ({[x]} ∪ B).
Proof.
  intros HxA HxB HW.
  destruct (decide (A = ∅)) as [->|HA].
  { rewrite overlap_score_empty_l. by apply overlap_score_nonneg. }
  destruct (decide (B = ∅)) as [->|HB].
  { rewrite overlap_score_empty_r. by apply overlap_score_nonneg. }
  rewrite !overlap_score_nonempty by set_solver.
  destruct (size_add_shared A B x HxA HxB) as (-> & -> & ->).
  rewrite <- Nat.succ_max_distr.
  apply Rmult_le_compat_r; [done|].
  apply ratio_succ_le; [apply inter_size_le_max|by apply max_size_pos].
Qed.

(* ===================================================================== *)
(** ** The routers: errors and pagination *)
(* ===================================================================== *)

Section RouterProperties.

Variable geodesic_km : R * R → R * R → R.
Variable round_ : R → Z → R.
Variable response_has_extend : bool.


(** A handler that got past the location check answers with a page
    exactly when the list it slices was produced. *)
Lemma get_discovery_located st uid user_loc distance_km limit offset min_age max_age sort_by :
  user_locations st uid = Ok (Some user_loc) →
  get_discovery geodesic_km round_ response_has_extend st uid
    distance_km limit offset min_age max_age sort_by =
  match discovery_filtered geodesic_km round_ response_has_extend st uid user_loc
          distance_km sort_by with
  | Ok filtered =>
      Ok {| data := py_slice filtered offset (offset + limit);
            total := Z.of_nat (length filtered);
            limit := limit; offset := offset |}
  | Raise (HTTPException c d) => Raise (HTTPException c d)
  | Raise (Exception msg) => Raise (HTTPException 500 msg)
  end.
Proof.
  intros Hloc. unfold get_discovery, http_errors. unfold_bind.
  rewrite Hloc. by destruct (discovery_filtered _ _ _ _ _ _ _ _) as [l|[c d|msg]].
Qed.

Lemma get_user_recommendations_located st uid user_loc limit offset :
  user_locations st uid = Ok (Some user_loc) →
  get_user_recommendations round_ st uid limit offset =
  match recommendations_ranked round_ st uid user_loc with
  | Ok recommendations =>
      Ok {| data := py_slice recommendations offset (offset + limit);
            total := Z.of_nat (length recommendations);
            limit := limit; offset := offset |}
  | Raise (HTTPException c d) => Raise (HTTPException c d)
  | Raise (Exception msg) => Raise (HTTPException 500 msg)
  end.
Proof.
  intros Hloc.
  unfold get_user_recommendations, http_errors.
  unfold_bind.
  rewrite Hloc. by destruct (recommendations_ranked _ _ _ _) as [l|[c d|msg]].
Qed.

(** A page was returned only if the viewer has a coordinate on record. *)
Lemma get_discovery_ok_located st uid distance_km limit offset min_age max_age sort_by pg :
  get_discovery geodesic_km round_ response_has_extend st uid
    distance_km limit offset min_age max_age sort_by = Ok pg →
  ∃ user_loc, user_locations st uid = Ok (Some user_loc).
Proof.
  unfold get_discovery, http_errors. unfold_bind.
  destruct (user_locations st uid) as [[user_loc|]|[c d|msg]]; try done. eauto.
Qed.

Lemma get_user_recommendations_ok_located st uid limit offset pg :
  get_user_recommendations round_ st uid limit offset = Ok pg →
  ∃ user_loc, user_locations st uid = Ok (Some user_loc).
Proof.
  unfold get_user_recommendations, http_errors.
  unfold_bind.
  destruct (user_locations st uid) as [[user_loc|]|[c d|msg]]; try done. eauto.
Qed.

(** C9: the discovery result does not depend on [min_age] and [max_age]:
    two requests that differ in these two parameters only get the same
    outcome (data, total, limit and offset) from the same store. *)
Theorem C9_discovery_ignores_age_bounds st uid distance_km limit offset sort_by
  (min_age max_age min_age' max_age' : Z) :
  get_discovery geodesic_km round_ response_has_extend st uid
    distance_km limit offset min_age max_age sort_by =
  get_discovery geodesic_km round_ response_has_extend st uid
    distance_km limit offset min_age' max_age' sort_by.
Proof. reflexivity. Qed.

End RouterProperties.

(* ===================================================================== *)
(** ** Exclusion *)
(* ===================================================================== *)

Lemma elem_of_List_filter {A : Type} (p : A → bool) (l : list A) (x : A) :
  x ∈ List.filter p l ↔ x ∈ l ∧ p x = true.
Proof. rewrite !list_elem_of_In. apply filter_In. Qed.

Lemma is_null_true {A : Type} (o : option A) : is_null o = true ↔ o = None.
Proof. by destruct o. Qed.

Lemma select_blocked_complete st viewer x blocked :
  select_blocked st viewer = Ok blocked → has_blocked st viewer x → x ∈ blocked.
Proof.
  unfold select_blocked, has_blocked. unfold_bind.
  destruct (user_blocks st) as [rows|]; [|done]. simpl.
  intros [= <-] (b & Hb & Hv & Hx & Hd). subst x.
  apply list_elem_of_fmap. exists b. split; [done|].
  apply elem_of_List_filter. split; [done|].
  apply andb_true_iff. split; [by apply bool_decide_eq_true|by apply is_null_true].
Qed.

Lemma select_reported_complete st viewer x reported :
  select_reported st viewer = Ok reported → has_reported st viewer x → x ∈ reported.
Proof.
  unfold select_reported, has_reported. unfold_bind.
  destruct (abuse_reports st) as [rows|]; [|done]. simpl.
  intros [= <-] (r & Hr & Hv & Hx & Hd). subst x.
  apply list_elem_of_fmap. exists r. split; [done|].
  apply elem_of_List_filter. split; [done|].
  apply andb_true_iff. split; [by apply bool_decide_eq_true|by apply is_null_true].
Qed.

Lemma select_matches_complete st viewer matched m :
  select_matches st viewer = Ok matched →
  m ∈ table (matches st) → match_deleted_at m = None →
  user1 m = viewer ∨ user2 m = viewer →
  m ∈ matched.
Proof.
  unfold select_matches. unfold_bind.
  destruct (matches st) as [rows|]; [|done]. simpl.
  intros [= <-] Hm Hd Hside.
  apply elem_of_List_filter. split; [done|].
  apply andb_true_iff. split; [|by apply is_null_true].
  apply orb_true_iff. destruct Hside; [left|right]; by apply bool_decide_eq_true.
Qed.

Lemma select_blocked_sound st viewer x blocked :
  select_blocked st viewer = Ok blocked → x ∈ blocked → has_blocked st viewer x.
Proof.
  unfold select_blocked, has_blocked. unfold_bind.
  destruct (user_blocks st) as [rows|]; [|done]. simpl.
  intros [= <-] (b & -> & Hb)%list_elem_of_fmap.
  apply elem_of_List_filter in Hb as [Hb Hp].
  apply andb_true_iff in Hp as [Hv%bool_decide_eq_true Hd%is_null_true].
  by exists b.
Qed.

Lemma select_reported_sound st viewer x reported :
  select_reported st viewer = Ok reported → x ∈ reported → has_reported st viewer x.
Proof.
  unfold select_reported, has_reported. unfold_bind.
  destruct (abuse_reports st) as [rows|]; [|done]. simpl.
  intros [= <-] (r & -> & Hr)%list_elem_of_fmap.
  apply elem_of_List_filter in Hr as [Hr Hp].
  apply andb_true_iff in Hp as [Hv%bool_decide_eq_true Hd%is_null_true].
  by exists r.
Qed.

Lemma select_matches_sound st viewer matched m :
  select_matches st viewer = Ok matched → m ∈ matched →
  m ∈ table (matches st) ∧ match_deleted_at m = None ∧
  (user1 m = viewer ∨ user2 m = viewer).
Proof.
  unfold select_matches. unfold_bind.
  destruct (matches st) as [rows|]; [|done]. simpl.
  intros [= <-] [Hm Hp]%elem_of_List_filter.
  apply andb_true_iff in Hp as [Hside Hd%is_null_true].
  apply orb_true_iff in Hside as [Hs%bool_decide_eq_true | Hs%bool_decide_eq_true]; auto.
Qed.

Section Exclusion.

Variable geodesic_km : R * R → R * R → R.
Variable round_ : R → Z → R.
Variable response_has_extend : bool.

(** The list the recommendations router ranks holds, up to order, the
    pool rows kept under the viewer's exclusion set and saved filters. *)
Lemma recommendations_ranked_survivors st viewer user_loc recommendations :
  recommendations_ranked round_ st viewer user_loc = Ok recommendations →
  ∃ pool filters_resp E,
    verified_users st = Ok pool ∧ user_filters st viewer = Ok filters_resp ∧
    (∀ x, Some x ∈ E ↔ excluded_for st viewer x) ∧
    map ri_id recommendations ≡ₚ
    map id (List.filter
              (recommendation_keeps E (default no_filters filters_resp)
                 (loc_latitude user_loc) (loc_longitude user_loc)) pool).
Proof using round_.
  clear geodesic_km response_has_extend.
  unfold recommendations_ranked. unfold_bind.
  destruct (user_filters st viewer) as [filters_resp|]; [|done].
  destruct (verified_users st) as [pool|]; [|done].
  destruct (select_blocked st viewer) as [blocked|] eqn:Hb; [|done].
  destruct (select_matches st viewer) as [matched|] eqn:Hm; [|done].
  destruct (select_reported st viewer) as [reported|] eqn:Hr; [|done].
  intros [= <-].
  eexists pool, filters_resp, _. split_and!; [done|done| |].
  2: { rewrite py_sort_perm, map_map.
       erewrite map_ext; [reflexivity|].
       intros usr. simpl.
       by destruct (calculate_compatibility_score st viewer (id usr)). }
  intros x. rewrite !elem_of_union, !elem_of_list_to_set, !list_elem_of_fmap,
    elem_of_singleton.
  split.
  - intros [[[(y & [= ->] & Hy) | (m & Hx & Hrow)] | (y & [= ->] & Hy)] | [= ->]].
    + right; left. eauto using select_blocked_sound.
    + right; right; left.
      destruct (select_matches_sound _ _ _ _ Hm Hrow) as (Ht & Hd & Hside).
      exists m. split; [done|]. split; [done|].
      case_bool_decide as Hu; injection Hx as ->; [right|left; naive_solver].
      split; [|done]. by destruct Hside.
    + right; right; right. eauto using select_reported_sound.
    + by left.
  - intros [-> | [Hblk | [Hmat | Hrep]]].
    + by right.
    + left; left; left. eauto using select_blocked_complete.
    + left; left; right. destruct Hmat as (m & Hrow & Hd & Hside).
      exists m. split.
      * destruct Hside as [[H1 H2] | [H1 H2]]; case_bool_decide; congruence.
      * eapply select_matches_complete; eauto. tauto.
    + left; right. eauto using select_reported_complete.
Qed.

(** The ids the discovery loop appends: the pool rows other than the
    viewer that lie within the radius, in pool order. *)
Lemma discovery_loop_ids viewer lat lon distance_km pool acc candidates :
  for_each pool (discovery_visit geodesic_km round_ viewer lat lon distance_km) acc
  = Ok candidates →
  map dc_id candidates =
  map dc_id acc ++
  map id (List.filter
            (fun usr =>
               negb (bool_decide (id usr = viewer))
               && negb (bool_decide
                          (IZR distance_km <
                           geodesic_km (lat, lon)
                             (default 0 (latitude usr), default 0 (longitude usr)))))
            pool).
Proof using geodesic_km round_.
  clear response_has_extend.
  revert acc. induction pool as [|usr pool IH]; intros acc; simpl.
  - intros [= <-]. by rewrite app_nil_r.
  - unfold_bind. unfold discovery_visit at 1. unfold_bind.
    case_bool_decide as Hid; simpl; [apply IH|].
    destruct (latitude usr) as [target_lat|]; simpl; [|done].
    destruct (longitude usr) as [target_lon|]; simpl; [|done].
    case_bool_decide; simpl; [apply IH|].
    intros Hrest. rewrite (IH _ Hrest), map_app, <- app_assoc. done.
Qed.

(** What lines 62-64 of discovery.py collect, when they do not raise. *)
Lemma discovery_matched_set_spec st viewer matched x :
  discovery_matched_rows response_has_extend st viewer = Ok matched →
  x ≠ ""%string →
  Some x ∈ (list_to_set (map (fun m => py_or (get_user2 m) (get_user1 m)) matched)
            : gset (option string))
  ↔ shares_match st viewer x.
Proof using response_has_extend.
  clear geodesic_km round_.
  unfold discovery_matched_rows, select_user2_of, select_user1_of, shares_match.
  unfold_bind.
  destruct (matches st) as [rows|]; [|done]. simpl.
  destruct response_has_extend; [|done]. intros [= <-] Hne.
  rewrite elem_of_list_to_set, list_elem_of_fmap. split.
  - intros (proj & Hx & [Hin | Hin]%elem_of_app);
      apply list_elem_of_fmap in Hin as (m & -> & Hrow);
      apply elem_of_List_filter in Hrow as [Hrow Hp];
      apply andb_true_iff in Hp as [Hv%bool_decide_eq_true Hd%is_null_true];
      simpl in Hx; exists m; (split; [done|]); (split; [done|]).
    + left. case_bool_decide; [done|]. by injection Hx as ->.
    + right. by injection Hx as ->.
  - intros (m & Hrow & Hd & [[H1 H2] | [H1 H2]]).
    + exists {| get_user1 := None; get_user2 := Some (user2 m) |}. split.
      * simpl. rewrite H2. by rewrite bool_decide_eq_false_2.
      * apply elem_of_app. left. apply list_elem_of_fmap. exists m. split; [done|].
        apply elem_of_List_filter. split; [done|].
        apply andb_true_iff. split; [by apply bool_decide_eq_true|by apply is_null_true].
    + exists {| get_user1 := Some (user1 m); get_user2 := None |}. split.
      * simpl. by rewrite H2.
      * apply elem_of_app. right. apply list_elem_of_fmap. exists m. split; [done|].
        apply elem_of_List_filter. split; [done|].
        apply andb_true_iff. split; [by apply bool_decide_eq_true|by apply is_null_true].
Qed.

(** The list the discovery feed ranks holds, up to order, the pool rows
    that survive exclusion and the radius. *)
Lemma discovery_filtered_survivors st viewer user_loc distance_km sort_by filtered :
  discovery_filtered geodesic_km round_ response_has_extend st viewer user_loc
    distance_km sort_by = Ok filtered →
  ∃ pool E,
    verified_users st = Ok pool ∧ is_exclusion_set st viewer E ∧
    map (fun item => dc_id (di_candidate item)) filtered ≡ₚ
    map id (List.filter (discovery_survives geodesic_km E user_loc distance_km) pool).
Proof.
  unfold discovery_filtered. unfold_bind.
  destruct (verified_users st) as [pool|]; [|done].
  destruct (for_each pool _ []) as [candidates|] eqn:Hloop; [|done].
  destruct (select_blocked st viewer) as [blocked|] eqn:Hb; [|done].
  destruct (discovery_matched_rows response_has_extend st viewer) as [matched|] eqn:Hm;
    [|done].
  destruct (select_reported st viewer) as [reported|] eqn:Hr; [|done].
  intros [= <-].
  set (blocked_set := list_to_set (map Some blocked) : gset (option string)).
  set (matched_set :=
         list_to_set (map (fun m => py_or (get_user2 m) (get_user1 m)) matched)
         : gset (option string)).
  set (reported_set := list_to_set (map Some reported) : gset (option string)).
  exists pool, (blocked_set ∪ matched_set ∪ reported_set ∪ {[Some viewer]}).
  split_and!; [done| |].
  - intros x Hne. rewrite !elem_of_union, elem_of_singleton.
    unfold matched_set. rewrite (discovery_matched_set_spec _ _ _ _ Hm Hne).
    unfold blocked_set, reported_set.
    rewrite !elem_of_list_to_set, !list_elem_of_fmap. unfold excluded_for. split.
    + intros [[[(y & [= ->] & Hy) | Hmat] | (y & [= ->] & Hy)] | [= ->]];
        eauto using select_blocked_sound, select_reported_sound.
    + intros [-> | [Hblk | [Hmat | Hrep]]];
        eauto 8 using select_blocked_complete, select_reported_complete.
  - assert (Hids :
      map (fun item => dc_id (di_candidate item))
        (map (fun candidate =>
                let '(score, match_pct) :=
                  calculate_compatibility_score st viewer (dc_id candidate) in
                {| di_candidate := candidate; di_match_percentage := round_ match_pct 2 |})
           (List.filter
              (fun c => negb (bool_decide (Some (dc_id c) ∈ blocked_set))
                        && negb (bool_decide (Some (dc_id c) ∈ matched_set))
                        && negb (bool_decide (Some (dc_id c) ∈ reported_set)))
              candidates))
      = map id (List.filter
                  (discovery_survives geodesic_km
                     (blocked_set ∪ matched_set ∪ reported_set ∪ {[Some viewer]})
                     user_loc distance_km) pool)).
    { rewrite map_map.
      erewrite map_ext;
        [|intros c; simpl;
          by destruct (calculate_compatibility_score st viewer (dc_id c))].
      transitivity
        (List.filter
           (fun i => negb (bool_decide (Some i ∈ blocked_set))
                     && negb (bool_decide (Some i ∈ matched_set))
                     && negb (bool_decide (Some i ∈ reported_set)))
           (map dc_id candidates)).
      { symmetry. apply filter_map_commute. }
      rewrite (discovery_loop_ids _ _ _ _ _ _ _ Hloop). simpl.
      rewrite filter_map_commute, filter_filter_andb. f_equal.
      apply filter_ext. intros usr. unfold discovery_survives.
      repeat case_bool_decide; simpl; try done; set_solver. }
    case_bool_decide; by rewrite py_sort_perm, Hids.
Qed.
(** Hence neither list holds an id of the exclusion set. *)
Lemma recommendations_ranked_excludes st viewer user_loc recommendations x :
  recommendations_ranked round_ st viewer user_loc = Ok recommendations →
  excluded_for st viewer x →
  x ∉ map ri_id recommendations.
Proof using round_.
  clear geodesic_km response_has_extend.
  intros (pool & filters_resp & E & _ & _ & HE & Hperm)%recommendations_ranked_survivors.
  intros Hex Hin. rewrite Hperm in Hin.
  apply list_elem_of_fmap in Hin as (usr & -> & [_ Hkeep]%elem_of_List_filter).
  unfold recommendation_keeps in Hkeep.
  case_bool_decide as Hnot; [done|]. by apply Hnot, HE.
Qed.

Lemma discovery_filtered_excludes st viewer user_loc distance_km sort_by filtered x :
  discovery_filtered geodesic_km round_ response_has_extend st viewer user_loc
    distance_km sort_by = Ok filtered →
  excluded_for st viewer x → x ≠ ""%string →
  x ∉ map (fun item => dc_id (di_candidate item)) filtered.
Proof.
  intros (pool & E & _ & HE & Hperm)%discovery_filtered_survivors Hex Hne Hin.
  rewrite Hperm in Hin.
  apply list_elem_of_fmap in Hin as (usr & -> & [_ Hkeep]%elem_of_List_filter).
  unfold discovery_survives in Hkeep.
  apply andb_true_iff in Hkeep as [Hnot%negb_true_iff%bool_decide_eq_false _].
  by apply Hnot, HE.
Qed.

End Exclusion.

(** Whatever rows the matches read returns for the viewer, the
    comprehension at line 161 of matching.py keeps none of them. *)
Lemma service_matched_ids_empty st viewer matched :
  select_matches st viewer = Ok matched →
  List.filter (fun m => negb (bool_decide (user1 m = viewer))
                        && negb (bool_decide (user2 m = viewer))) matched = [].
Proof.
  unfold select_matches. unfold_bind.
  destruct (matches st) as [rows|]; [|done]. intros [= <-].
  induction rows as [|m rows IH]; simpl; [done|].
  destruct (bool_decide (user1 m = viewer)) eqn:E1;
    destruct (bool_decide (user2 m = viewer)) eqn:E2;
    destruct (is_null (match_deleted_at m)); simpl; rewrite ?E1, ?E2; simpl; done.
Qed.


(** Both routers: no id of the exclusion set is on a returned page. *)
Lemma routers_exclude geodesic_km round_ response_has_extend st viewer x :
  excluded_for st viewer x →
  (∀ distance_km limit offset min_age max_age sort_by pg,
     get_discovery geodesic_km round_ response_has_extend st viewer
       distance_km limit offset min_age max_age sort_by = Ok pg →
     x ≠ ""%string →
     x ∉ map (fun item => dc_id (di_candidate item)) (data pg))
  ∧
  (∀ limit offset pg,
     get_user_recommendations round_ st viewer limit offset = Ok pg →
     x ∉ map ri_id (data pg)).
Proof.
  intros Hex. split.
  - intros distance_km limit offset min_age max_age sort_by pg Hpg Hne Hin.
    destruct (get_discovery_ok_located _ _ _ _ _ _ _ _ _ _ _ _ Hpg) as [user_loc Hloc].
    rewrite (get_discovery_located _ _ _ _ _ _ _ _ _ _ _ _ Hloc) in Hpg.
    destruct (discovery_filtered _ _ _ st viewer user_loc distance_km sort_by)
      as [filtered|[c d|msg]] eqn:Hf; try done.
    injection Hpg as <-. simpl in Hin.
    apply list_elem_of_fmap in Hin as (item & -> & Hitem).
    apply py_slice_subset in Hitem.
    eapply discovery_filtered_excludes; [exact Hf|exact Hex|exact Hne|].
    apply list_elem_of_fmap. eauto.
  - intros limit offset pg Hpg Hin.
    destruct (get_user_recommendations_ok_located _ _ _ _ _ _ Hpg) as [user_loc Hloc].
    rewrite (get_user_recommendations_located _ _ _ _ _ _ Hloc) in Hpg.
    destruct (recommendations_ranked _ st viewer user_loc)
      as [recommendations|[c d|msg]] eqn:Hf; try done.
    injection Hpg as <-. simpl in Hin.
    apply list_elem_of_fmap in Hin as (item & -> & Hitem).
    apply py_slice_subset in Hitem.
    eapply (recommendations_ranked_excludes round_); [exact Hf|exact Hex|].
    apply list_elem_of_fmap. eauto.
Qed.

(** C2: at [matched_store], "max" belongs to the exclusion set of "vera"
    (they share a live match) and [get_recommendations] of matching.py
    returns "max" on the first page all the same. *)
Theorem C2_service_returns_matched_user :
  shares_match matched_store "vera" "max" ∧
  excluded_for matched_store "vera" "max" ∧
  "max"%string ∈ map rec_id (get_recommendations matched_store "vera" 20 0).
Proof.
  assert (Hm : shares_match matched_store "vera" "max").
  { exists {| user1 := "vera"; user2 := "max"; match_deleted_at := None |}.
    split; [apply list_elem_of_here|]. split; [done|]. by left. }
  split; [exact Hm|]. split; [right; right; left; exact Hm|].
  unfold get_recommendations, get_recommendations_body. unfold_bind.
  cbn [matched_store users_single user_filters verified_users is_null].
  unfold select_blocked, select_matches, select_reported. unfold_bind.
  cbn [matched_store user_blocks matches abuse_reports].
  match goal with
  | |- context [List.filter ?p [mk_user "max" [] None None]] =>
      replace (List.filter p [mk_user "max" [] None None])
        with [mk_user "max" [] None None] by (vm_compute; reflexivity)
  end.
  cbn [map id mk_user].
  destruct (calculate_compatibility_score matched_store "vera" "max") as [score match_pct].
  vm_compute. apply list_elem_of_here.
Qed.

(* ===================================================================== *)
(** ** The theorems at concrete inputs *)
(* ===================================================================== *)

(** The two set factors of the scenario: (2/3) * 40 and (1/2) * 30. *)
Example scenario_set_scores :
  overlap_score 40 (list_to_set ["A"; "B"; "C"]%string) (list_to_set ["A"; "B"]%string)
  = 80 / 3 ∧
  overlap_score 30 (list_to_set ["X"; "Y"]%string) (list_to_set ["X"]%string) = 15.
Proof.
  split.
  - rewrite overlap_score_nonempty by set_solver.
    replace (size (_ ∩ _ : gset string)) with 2%nat by (vm_compute; reflexivity).
    replace (Nat.max _ _) with 3%nat by (vm_compute; reflexivity).
    simpl. field.
  - rewrite overlap_score_nonempty by set_solver.
    replace (size (_ ∩ _ : gset string)) with 1%nat by (vm_compute; reflexivity).
    replace (Nat.max _ _) with 2%nat by (vm_compute; reflexivity).
    simpl. field.
Qed.

(** C5 as stated fails: "cy" and "dee" are identical in every respect the
    claim names, with the same (empty) interest set, and score 60. *)
Lemma C5_counterexample :
  identical_users twins_store "cy" "dee" ∧
  calculate_compatibility_score twins_store "cy" "dee" = (60, 60) ∧
  calculate_compatibility_score twins_store "cy" "dee" ≠ (100, 100).
Proof.
  assert (Hc : reads twins_store "cy" (twin_reads "cy" [])) by (repeat split; reflexivity).
  assert (Hd : reads twins_store "dee" (twin_reads "dee" [])) by (repeat split; reflexivity).
  assert (Hscore : calculate_compatibility_score twins_store "cy" "dee" = (60, 60)).
  { rewrite (calculate_compatibility_score_reads _ _ _ _ _ Hc Hd). cbv zeta.
    cbn [twin_reads ur_interests ur_profile ur_lifestyle ur_goals list_to_set].
    rewrite overlap_score_empty_l.
    rewrite overlap_score_self.
    2: { apply (non_empty_inhabited_L "honesty"%string). simpl. set_solver. }
    unfold recorded_coordinate. cbn [twins_store user_locations].
    rewrite location_score_of_same.
    rewrite !fields_score_same.
    - f_equal; ring.
    - exists "wants_kids"%string. split; [apply list_elem_of_here|].
      unfold wants_children. rewrite lookup_singleton_eq. eauto.
    - exists "smoking"%string. split; [apply list_elem_of_here|].
      unfold non_smoker. rewrite lookup_singleton_eq. eauto. }
  split; [|split; [exact Hscore|]].
  - exists (twin_reads "cy" []), (twin_reads "dee" []),
      {| loc_latitude := 10; loc_longitude := 20 |}.
    repeat split; reflexivity.
  - rewrite Hscore. intros [= H]. lra.
Qed.

Lemma C7_witness :
  let A : gset string := {["a"%string]} in
  let B : gset string := {["a"%string; "b"%string]} in
  overlap_score 40 A B <= overlap_score 40 ({["c"%string]} ∪ A) ({["c"%string]} ∪ B).
Proof.
  apply (C7_overlap_monotone_in_shared_element
           {["a"%string]} {["a"%string; "b"%string]} "c"%string 40).
  - set_solver.
  - set_solver.
  - lra.
Defined.

(* ===================================================================== *)
(** ** Further properties of the distance and of the scorer *)
(* ===================================================================== *)

Lemma atan_nonneg (x : R) : 0 <= x → 0 <= atan x.
Proof.
  intros [Hx | <-]; [|rewrite atan_0; lra].
  left. rewrite <- atan_0. by apply atan_increasing.
Qed.

(** In the first quadrant [atan2] lies between 0 and pi/2. *)
Lemma atan2_first_quadrant (y x : R) : 0 <= y → 0 <= x → 0 <= atan2 y x <= PI / 2.
Proof.
  intros Hy Hx. unfold atan2. pose proof PI_RGT_0 as Hpi.
  destruct (Rlt_dec 0 x) as [Hpos|Hnpos].
  - split.
    + apply atan_nonneg. by apply div_nonneg.
    + left. apply atan_bound.
  - destruct (Rlt_dec x 0); [lra|].
    destruct (Rlt_dec 0 y); [lra|].
    destruct (Rlt_dec y 0); lra.
Qed.

(** X1: [haversine_distance] is symmetric in its two points, and the
    distance from a point to itself is 0, whatever the coordinates are
    (in range or not). *)
Theorem X1_haversine_symmetric_and_zero_on_same_point (lat1 lon1 lat2 lon2 : R) :
  haversine_distance lat1 lon1 lat2 lon2 = haversine_distance lat2 lon2 lat1 lon1 ∧
  haversine_distance lat1 lon1 lat1 lon1 = 0.
Proof. split; [apply haversine_distance_sym|apply haversine_distance_same]. Qed.

Lemma haversine_distance_range (lat1 lon1 lat2 lon2 : R) :
  0 <= haversine_distance lat1 lon1 lat2 lon2 <= 6371 * PI.
Proof.
  unfold haversine_distance.
  match goal with
  | |- context [atan2 ?y ?x] =>
      pose proof (atan2_first_quadrant y x (sqrt_pos _) (sqrt_pos _)) as [Hlo Hhi]
  end.
  lra.
Qed.

(** X2: the distance is never negative and never more than half the
    circumference of a sphere of radius 6371, for all inputs. *)
Theorem X2_haversine_range (lat1 lon1 lat2 lon2 : R) :
  0 <= haversine_distance lat1 lon1 lat2 lon2 <= 6371 * PI.
Proof. apply haversine_distance_range. Qed.

Lemma overlap_score_le (A B : gset string) (W : R) : 0 <= W → overlap_score W A B <= W.
Proof.
  intros HW. unfold overlap_score.
  destruct (_ && _); [|lra].
  destruct (_ <? _)%nat eqn:Hlt; [|lra].
  apply Nat.ltb_lt in Hlt.
  pose proof (inter_size_le_max A B) as Hle.
  apply le_INR in Hle. apply lt_0_INR in Hlt.
  pose proof (pos_INR (size (A ∩ B))) as Hk.
  set (k := INR (size (A ∩ B))) in *. set (m := INR (Nat.max (size A) (size B))) in *.
  assert (k / m <= 1).
  { apply Rmult_le_reg_r with m; [done|]. unfold Rdiv.
    rewrite Rmult_assoc, Rinv_l by lra. lra. }
  assert (0 <= k / m) by (apply div_nonneg; lra).
  nra.
Qed.

Lemma location_score_of_range (c1 c2 : option location_row) :
  0 <= location_score_of c1 c2 <= 15.
Proof.
  destruct c1 as [l1|], c2 as [l2|]; simpl; try lra.
  pose proof (haversine_distance_range (loc_latitude l1) (loc_longitude l1)
                (loc_latitude l2) (loc_longitude l2)) as [Hd _].
  set (d := haversine_distance _ _ _ _) in *.
  split; [apply Rmax_l|].
  apply Rmax_lub; [lra|].
  assert (0 <= Rmin d 30) by (apply Rmin_glb; lra).
  lra.
Qed.

Lemma fields_score_range (W : R) fields (a b : option prefs_row) :
  0 <= W → 0 <= fields_score W fields a b <= W.
Proof.
  intros HW. rewrite fields_score_spec. unfold spec_field_equality.
  destruct a as [ra|], b as [rb|]; try lra.
  set (checked := filter _ fields).
  destruct (decide _) as [Hpos|]; [|lra].
  assert (Hle : (length (filter (fun f => ra !! f = rb !! f) checked) <= length checked)%nat)
    by apply length_filter.
  apply le_INR in Hle. apply lt_0_INR in Hpos.
  pose proof (pos_INR (length (filter (fun f => ra !! f = rb !! f) checked))) as Hk.
  set (k := INR (length (filter _ checked))) in *. set (m := INR (length checked)) in *.
  assert (k / m <= 1).
  { apply Rmult_le_reg_r with m; [done|]. unfold Rdiv.
    rewrite Rmult_assoc, Rinv_l by lra. lra. }
  assert (0 <= k / m) by (apply div_nonneg; lra).
  nra.
Qed.

Lemma calculate_compatibility_score_range st (a b : user_id) :
  fst (calculate_compatibility_score st a b) = snd (calculate_compatibility_score st a b) ∧
  0 <= fst (calculate_compatibility_score st a b) <= 100.
Proof.
  unfold calculate_compatibility_score, compatibility_body. unfold_bind.
  destruct (users_single st a) as [[pa|]|]; destruct (users_single st b) as [[pb|]|];
    simpl; try (split; [done|lra]).
  destruct (user_interests st a) as [ia|]; [|simpl; split; [done|lra]].
  destruct (user_interests st b) as [ib|]; [|simpl; split; [done|lra]].
  pose proof (overlap_score_nonneg 40 (list_to_set ia) (list_to_set ib)).
  pose proof (overlap_score_le (list_to_set ia) (list_to_set ib) 40).
  pose proof (overlap_score_nonneg 30 (values_set pa) (values_set pb)).
  pose proof (overlap_score_le (values_set pa) (values_set pb) 30).
  assert (Hloc : ∀ c1 c2, 0 <= location_score_of c1 c2 <= 15)
    by apply location_score_of_range.
  assert (Hl : ∀ x y, 0 <= fields_score 10 lifestyle_fields x y <= 10)
    by (intros; apply fields_score_range; lra).
  assert (Hg : ∀ x y, 0 <= fields_score 5 goals_fields x y <= 5)
    by (intros; apply fields_score_range; lra).
  destruct (user_locations st a) as [ca|];
    [destruct (user_locations st b) as [cb|]|];
    (destruct (user_lifestyle st a) as [la|]; [|simpl; split; [done|lra]]);
    (destruct (user_lifestyle st b) as [lb|]; [|simpl; split; [done|lra]]);
    (destruct (user_goals st a) as [ga|]; [|simpl; split; [done|lra]]);
    (destruct (user_goals st b) as [gb|]; [|simpl; split; [done|lra]]);
    simpl; (split; [done|]);
    try specialize (Hloc ca cb); specialize (Hl la lb); specialize (Hg ga gb); lra.
Qed.

(** X4: with both profiles on record, an interests, lifestyle or goals read
    that raises makes the scorer return (0, 0): the factors computed
    before the failing read are lost. *)
Theorem X4_raised_read_returns_zero st u1 u2 p1 p2 e :
  users_single st u1 = Ok (Some p1) → users_single st u2 = Ok (Some p2) →
  user_interests st u1 = Raise e ∨ user_interests st u2 = Raise e ∨
  user_lifestyle st u1 = Raise e ∨ user_lifestyle st u2 = Raise e ∨
  user_goals st u1 = Raise e ∨ user_goals st u2 = Raise e →
  calculate_compatibility_score st u1 u2 = (0, 0).
Proof. apply raised_read_zeroes_score. Qed.

(** X5: the location factor of two recorded coordinates is 15 - d/2 for a
    distance d of at most 30 km and 0 from 30 km on. *)
Theorem X5_location_factor_by_distance (l1 l2 : location_row) :
  let d := haversine_distance (loc_latitude l1) (loc_longitude l1)
             (loc_latitude l2) (loc_longitude l2) in
  (d <= 30 → location_score_of (Some l1) (Some l2) = 15 - d / 2) ∧
  (30 <= d → location_score_of (Some l1) (Some l2) = 0).
Proof.
  cbv zeta. simpl.
  pose proof (haversine_distance_range (loc_latitude l1) (loc_longitude l1)
                (loc_latitude l2) (loc_longitude l2)) as [Hd _].
  set (d := haversine_distance _ _ _ _) in *.
  split; intros Hle.
  - rewrite Rmin_left by done. rewrite Rmax_right; lra.
  - rewrite Rmin_right by done. rewrite Rmax_left; lra.
Qed.

Lemma filter_agree {A : Type} (P Q : A → Prop) `{∀ x, Decision (P x)} `{∀ x, Decision (Q x)}
  (l : list A) :
  (∀ x, x ∈ l → P x ↔ Q x) → filter P l = filter Q l.
Proof.
  induction l as [|x l IH]; intros Hl; [done|].
  rewrite !filter_cons.
  assert (HPQ : P x ↔ Q x) by (apply Hl; left).
  rewrite IH by (intros y Hy; apply Hl; by right).
  destruct (decide (P x)), (decide (Q x)); naive_solver.
Qed.

Lemma spec_field_equality_agree (a a' b b' : prefs_row) fields W :
  (∀ f, f ∈ fields → a !! f = a' !! f) → (∀ f, f ∈ fields → b !! f = b' !! f) →
  spec_field_equality (Some a) (Some b) fields W =
  spec_field_equality (Some a') (Some b') fields W.
Proof.
  intros Ha Hb. unfold spec_field_equality.
  assert (Hc : filter (fun f => is_Some (a !! f) ∧ is_Some (b !! f)) fields
             = filter (fun f => is_Some (a' !! f) ∧ is_Some (b' !! f)) fields).
  { apply filter_agree. intros f Hf. simpl. by rewrite (Ha f Hf), (Hb f Hf). }
  rewrite Hc.
  set (checked := filter _ fields).
  assert (Hm : filter (fun f => a !! f = b !! f) checked
             = filter (fun f => a' !! f = b' !! f) checked).
  { apply filter_agree. intros f [_ Hf]%list_elem_of_filter. simpl.
    by rewrite (Ha f Hf), (Hb f Hf). }
  by rewrite Hm.
Qed.

(** X6: the lifestyle and goals factors read the compared fields only:
    records that agree with the given ones on these fields (whatever else
    they hold, [drugs], [sleep_schedule], ...) score the same. *)
Theorem X6_fields_score_reads_compared_fields_only (a a' b b' : prefs_row) fields W :
  (∀ f, f ∈ fields → a !! f = a' !! f) → (∀ f, f ∈ fields → b !! f = b' !! f) →
  fields_score W fields (Some a) (Some b) = fields_score W fields (Some a') (Some b').
Proof.
  intros Ha Hb. rewrite !fields_score_spec. by apply spec_field_equality_agree.
Qed.

(** X7: a compared field that is null in both records counts as a match:
    two records holding every compared field with a null value get the
    full weight. *)
Theorem X7_null_fields_match (a b : prefs_row) fields W :
  fields ≠ [] →
  (∀ f, f ∈ fields → a !! f = Some None ∧ b !! f = Some None) →
  fields_score W fields (Some a) (Some b) = W.
Proof.
  intros Hne Hnull. rewrite fields_score_spec. unfold spec_field_equality.
  assert (Hc : filter (fun f => is_Some (a !! f) ∧ is_Some (b !! f)) fields = fields).
  { clear Hne. induction fields as [|f fields IH]; [done|].
    rewrite filter_cons_True.
    - rewrite IH; [done|]. intros g Hg. apply Hnull. by right.
    - destruct (Hnull f ltac:(left)) as [Ha Hb]. split; eexists; [exact Ha|exact Hb]. }
  rewrite Hc.
  assert (Hm : filter (fun f => a !! f = b !! f) fields = fields).
  { clear Hne Hc. induction fields as [|f fields IH]; [done|].
    rewrite filter_cons_True.
    - rewrite IH; [done|]. intros g Hg. apply Hnull. by right.
    - destruct (Hnull f ltac:(left)) as [Ha Hb]. simpl.
      transitivity (Some None : option field_value); [exact Ha|symmetry; exact Hb]. }
  rewrite Hm.
  assert (Hpos : (0 < length fields)%nat) by (destruct fields; [done|simpl; lia]).
  rewrite decide_True by done.
  apply lt_0_INR in Hpos. field. lra.
Qed.



(** X3: for every store and every pair of ids, the two outputs of
    [calculate_compatibility_score] are the same number, and it lies
    between 0 and 100. *)
Theorem X3_score_range st (a b : user_id) :
  fst (calculate_compatibility_score st a b) = snd (calculate_compatibility_score st a b) ∧
  0 <= fst (calculate_compatibility_score st a b) <= 100.
Proof. apply calculate_compatibility_score_range. Qed.

(* ===================================================================== *)
(** ** Order of the pages *)
(* ===================================================================== *)

Section Ordering.
Context {A : Type}.
Implicit Types (l : list A) (x : A).

Lemma insert_by_Forall (P : A → Prop) (before : A → A → bool) x l :
  P x → Forall P l → Forall P (insert_by before x l).
Proof.
  intros Hx Hl. induction Hl as [|y l Hy Hl IH]; simpl; [by repeat constructor|].
  destruct (before x y); repeat constructor; done.
Qed.

Lemma insert_by_sorted (Rel : relation A) `{!Transitive Rel} (before : A → A → bool) x l :
  (∀ a b, before a b = true → Rel a b) →
  (∀ a b, before a b = false → Rel b a) →
  StronglySorted Rel l → StronglySorted Rel (insert_by before x l).
Proof.
  intros Hyes Hno. induction 1 as [|y l Hl IH Hy]; simpl; [by repeat constructor|].
  destruct (before x y) eqn:Hb.
  - constructor; [by constructor|].
    constructor; [by apply Hyes|].
    eapply Forall_impl; [exact Hy|]. intros z Hz. by transitivity y; [apply Hyes|].
  - constructor; [done|].
    apply insert_by_Forall; [by apply Hno|done].
Qed.

(** [sort(key=..., reverse=True)] leaves the keys in non-increasing order,
    [sort(key=...)] in non-decreasing order. *)
Lemma py_sort_descending (key : A → R) l :
  StronglySorted (fun a b => key b <= key a) (py_sort key true l).
Proof.
  assert (Transitive (fun a b : A => key b <= key a)) by (intros a b c ??; lra).
  unfold py_sort. induction l as [|x l IH]; simpl; [constructor|].
  apply insert_by_sorted; [done| | |done]; intros a b; case_bool_decide; try done; lra.
Qed.

Lemma py_sort_ascending (key : A → R) l :
  StronglySorted (fun a b => key a <= key b) (py_sort key false l).
Proof.
  assert (Transitive (fun a b : A => key a <= key b)) by (intros a b c ??; lra).
  unfold py_sort. induction l as [|x l IH]; simpl; [constructor|].
  apply insert_by_sorted; [done| | |done]; intros a b; case_bool_decide; try done; lra.
Qed.

Lemma py_slice_sorted (Rel : relation A) l (start stop : Z) :
  StronglySorted Rel l → StronglySorted Rel (py_slice l start stop).
Proof.
  intros Hl. unfold py_slice.
  match goal with |- StronglySorted _ (firstn ?a (skipn ?b _)) => set (n := a); set (s := b) end.
  rewrite <- (take_drop s l) in Hl. apply StronglySorted_app_1_r in Hl.
  rewrite <- (take_drop n (drop s l)) in Hl. by apply StronglySorted_app_1_l in Hl.
Qed.

(** Consecutive pages tile the list. *)
Lemma py_slice_consecutive l (offset n m : Z) :
  (0 <= offset)%Z → (0 <= n)%Z → (0 <= m)%Z →
  py_slice l offset (offset + n) ++ py_slice l (offset + n) (offset + n + m)
  = py_slice l offset (offset + (n + m)).
Proof.
  intros Ho Hn Hm. rewrite !py_slice_page by lia.
  replace (Z.to_nat (offset + n)) with (Z.to_nat offset + Z.to_nat n)%nat by lia.
  replace (Z.to_nat (n + m)) with (Z.to_nat n + Z.to_nat m)%nat by lia.
  rewrite <- (drop_drop l (Z.to_nat n) (Z.to_nat offset)).
  apply take_take_drop.
Qed.

(** A page never holds more entries than [limit], also for a negative
    offset (counted from the end, as Python does). *)
Lemma py_slice_length_le l (limit offset : Z) :
  (0 <= limit)%Z →
  (Z.of_nat (length (py_slice l offset (offset + limit))) <= limit)%Z.
Proof.
  intros Hl. unfold py_slice, clamp_index.
  rewrite length_firstn, length_skipn.
  set (len := Z.of_nat (length l)).
  destruct (offset <? 0)%Z eqn:E1; destruct (offset + limit <? 0)%Z eqn:E2;
    try apply Z.ltb_lt in E1; try apply Z.ltb_lt in E2;
    try apply Z.ltb_ge in E1; try apply Z.ltb_ge in E2; unfold len; lia.
Qed.

End Ordering.

(* ===================================================================== *)
(** ** The recommendations router, entry by entry *)
(* ===================================================================== *)

(** The ranked list of the router, spelled out. *)
Lemma recommendations_ranked_unfold (round_ : R → Z → R) st viewer user_loc recommendations :
  recommendations_ranked round_ st viewer user_loc = Ok recommendations →
  ∃ filters_resp pool E,
    user_filters st viewer = Ok filters_resp ∧ verified_users st = Ok pool ∧
    recommendations =
    py_sort ri_compatibility_score true
      (map (fun candidate =>
              let '(score, match_pct) :=
                calculate_compatibility_score st viewer (id candidate) in
              {| ri_id := id candidate;
                 ri_age := age candidate;
                 ri_gender := gender candidate;
                 ri_compatibility_score := round_ score 2%Z;
                 ri_match_percentage := round_ match_pct 2%Z |})
         (List.filter
            (recommendation_keeps E (default no_filters filters_resp)
               (loc_latitude user_loc) (loc_longitude user_loc)) pool)).
Proof.
  unfold recommendations_ranked. unfold_bind.
  destruct (user_filters st viewer) as [filters_resp|]; [|done].
  destruct (verified_users st) as [pool|]; [|done].
  destruct (select_blocked st viewer) as [blocked|]; [|done].
  destruct (select_matches st viewer) as [matched|]; [|done].
  destruct (select_reported st viewer) as [reported|]; [|done].
  intros [= <-]. by eexists filters_resp, pool, _.
Qed.

(** Every entry of a returned page comes from a pool row the loop kept. *)
Lemma get_user_recommendations_entries (round_ : R → Z → R) st uid limit offset pg :
  get_user_recommendations round_ st uid limit offset = Ok pg →
  ∃ user_loc filters_resp pool E,
    user_locations st uid = Ok (Some user_loc) ∧
    user_filters st uid = Ok filters_resp ∧ verified_users st = Ok pool ∧
    ∀ item, item ∈ data pg →
      ∃ usr, usr ∈ pool ∧
        recommendation_keeps E (default no_filters filters_resp)
          (loc_latitude user_loc) (loc_longitude user_loc) usr = true ∧
        item = {| ri_id := id usr; ri_age := age usr; ri_gender := gender usr;
                  ri_compatibility_score :=
                    round_ (fst (calculate_compatibility_score st uid (id usr))) 2%Z;
                  ri_match_percentage :=
                    round_ (snd (calculate_compatibility_score st uid (id usr))) 2%Z |}.
Proof.
  intros Hpg.
  destruct (get_user_recommendations_ok_located _ _ _ _ _ _ Hpg) as [user_loc Hloc].
  rewrite (get_user_recommendations_located _ _ _ _ _ _ Hloc) in Hpg.
  destruct (recommendations_ranked _ st uid user_loc)
    as [recommendations|[c d|msg]] eqn:Hf; try done.
  injection Hpg as <-. simpl.
  destruct (recommendations_ranked_unfold _ _ _ _ _ Hf)
    as (filters_resp & pool & E & Hfilters & Hpool & ->).
  exists user_loc, filters_resp, pool, E. split_and!; try done.
  intros item Hitem%py_slice_subset%py_sort_elem_of.
  apply list_elem_of_fmap in Hitem as (usr & -> & [Husr Hkeep]%elem_of_List_filter).
  exists usr. split_and!; try done.
  by destruct (calculate_compatibility_score st uid (id usr)).
Qed.

(** X9: a page of recommendations is in non-increasing order of
    [compatibility_score]. *)
Theorem X9_recommendations_ranked_by_score (round_ : R → Z → R) st uid limit offset pg :
  get_user_recommendations round_ st uid limit offset = Ok pg →
  StronglySorted (fun a b => ri_compatibility_score b <= ri_compatibility_score a)
    (data pg).
Proof.
  intros Hpg.
  destruct (get_user_recommendations_ok_located _ _ _ _ _ _ Hpg) as [user_loc Hloc].
  rewrite (get_user_recommendations_located _ _ _ _ _ _ Hloc) in Hpg.
  destruct (recommendations_ranked _ st uid user_loc)
    as [recommendations|[c d|msg]] eqn:Hf; try done.
  injection Hpg as <-. simpl.
  destruct (recommendations_ranked_unfold _ _ _ _ _ Hf) as (? & ? & ? & _ & _ & ->).
  apply py_slice_sorted, py_sort_descending.
Qed.


(** X11: in every entry [compatibility_score] and [match_percentage] are
    the two outputs of the scorer for the viewer and that entry's id,
    rounded to two digits; hence one and the same number. *)
Theorem X11_recommendation_entry_scores (round_ : R → Z → R) st uid limit offset pg item :
  get_user_recommendations round_ st uid limit offset = Ok pg →
  item ∈ data pg →
  ri_compatibility_score item
  = round_ (fst (calculate_compatibility_score st uid (ri_id item))) 2%Z ∧
  ri_match_percentage item
  = round_ (snd (calculate_compatibility_score st uid (ri_id item))) 2%Z ∧
  ri_compatibility_score item = ri_match_percentage item.
Proof.
  intros Hpg Hitem.
  destruct (get_user_recommendations_entries _ _ _ _ _ _ Hpg)
    as (user_loc & filters_resp & pool & E & _ & _ & _ & Hitems).
  destruct (Hitems item Hitem) as (usr & _ & _ & ->). simpl.
  split_and!; try done.
  by destruct (calculate_compatibility_score_range st uid (id usr)) as [-> _].
Qed.

Lemma recommendations_ranked_returns (round_ : R → Z → R) st viewer user_loc :
  (∃ l, recommendations_ranked round_ st viewer user_loc = Ok l) ↔
  (∃ x, user_filters st viewer = Ok x) ∧ (∃ x, verified_users st = Ok x) ∧
  (∃ x, user_blocks st = Ok x) ∧ (∃ x, matches st = Ok x) ∧
  (∃ x, abuse_reports st = Ok x).
Proof.
  unfold recommendations_ranked, select_blocked, select_matches, select_reported.
  unfold_bind.
  destruct (user_filters st viewer), (verified_users st), (user_blocks st),
    (matches st), (abuse_reports st); simpl; naive_solver.
Qed.

(** When the recommendations router answers with a page. *)
Lemma get_user_recommendations_answered_iff (round_ : R → Z → R) st uid limit offset :
  (∃ pg, get_user_recommendations round_ st uid limit offset = Ok pg) ↔
  (∃ user_loc, user_locations st uid = Ok (Some user_loc)) ∧
  (∃ x, user_filters st uid = Ok x) ∧ (∃ x, verified_users st = Ok x) ∧
  (∃ x, user_blocks st = Ok x) ∧ (∃ x, matches st = Ok x) ∧
  (∃ x, abuse_reports st = Ok x).
Proof.
  split.
  - intros [pg Hpg].
    destruct (get_user_recommendations_ok_located _ _ _ _ _ _ Hpg) as [user_loc Hloc].
    split; [eauto|].
    rewrite (get_user_recommendations_located _ _ _ _ _ _ Hloc) in Hpg.
    apply (recommendations_ranked_returns round_ st uid user_loc).
    destruct (recommendations_ranked _ st uid user_loc) as [l|[c d|msg]]; [eauto|done..].
  - intros [[user_loc Hloc] Hreads].
    apply (recommendations_ranked_returns round_ st uid user_loc) in Hreads as [l Hl].
    rewrite (get_user_recommendations_located _ _ _ _ _ _ Hloc), Hl. eauto.
Qed.



(* ===================================================================== *)
(** ** The discovery feed, entry by entry *)
(* ===================================================================== *)

Section DiscoveryEntries.

Variable geodesic_km : R * R → R * R → R.
Variable round_ : R → Z → R.
Variable response_has_extend : bool.

(** What the loop of lines 36-57 appends. *)
Lemma discovery_loop_items viewer lat lon distance_km pool acc candidates :
  for_each pool (discovery_visit geodesic_km round_ viewer lat lon distance_km) acc
  = Ok candidates →
  ∀ c, c ∈ candidates →
    c ∈ acc ∨
    ∃ usr target_lat target_lon,
      usr ∈ pool ∧ id usr ≠ viewer ∧
      latitude usr = Some target_lat ∧ longitude usr = Some target_lon ∧
      geodesic_km (lat, lon) (target_lat, target_lon) <= IZR distance_km ∧
      c = {| dc_id := id usr;
             dc_email := email usr;
             dc_traits := default [] (traits usr);
             dc_values := default [] (values usr);
             dc_green_flags := default [] (green_flags usr);
             dc_red_flags := default [] (red_flags usr);
             dc_lifestyle := default [] (lifestyle usr);
             dc_distance_km :=
               round_ (geodesic_km (lat, lon) (target_lat, target_lon)) 1;
             dc_created_at := created_at usr |}.
Proof using Type.
  clear response_has_extend.
  revert acc. induction pool as [|usr pool IH]; intros acc; simpl.
  - intros [= <-]. auto.
  - unfold_bind. unfold discovery_visit at 1. unfold_bind.
    assert (Hlift : ∀ acc', for_each pool
              (discovery_visit geodesic_km round_ viewer lat lon distance_km) acc'
              = Ok candidates →
              (∀ c, c ∈ acc' → c ∈ acc ∨
                 ∃ u la lo, u ∈ usr :: pool ∧ id u ≠ viewer ∧
                   latitude u = Some la ∧ longitude u = Some lo ∧
                   geodesic_km (lat, lon) (la, lo) <= IZR distance_km ∧
                   c = {| dc_id := id u; dc_email := email u;
                          dc_traits := default [] (traits u);
                          dc_values := default [] (values u);
                          dc_green_flags := default [] (green_flags u);
                          dc_red_flags := default [] (red_flags u);
                          dc_lifestyle := default [] (lifestyle u);
                          dc_distance_km := round_ (geodesic_km (lat, lon) (la, lo)) 1;
                          dc_created_at := created_at u |}) →
              ∀ c, c ∈ candidates → c ∈ acc ∨
                 ∃ u la lo, u ∈ usr :: pool ∧ id u ≠ viewer ∧
                   latitude u = Some la ∧ longitude u = Some lo ∧
                   geodesic_km (lat, lon) (la, lo) <= IZR distance_km ∧
                   c = {| dc_id := id u; dc_email := email u;
                          dc_traits := default [] (traits u);
                          dc_values := default [] (values u);
                          dc_green_flags := default [] (green_flags u);
                          dc_red_flags := default [] (red_flags u);
                          dc_lifestyle := default [] (lifestyle u);
                          dc_distance_km := round_ (geodesic_km (lat, lon) (la, lo)) 1;
                          dc_created_at := created_at u |}).
    { intros acc' Hrest Hacc' c Hc.
      destruct (IH _ Hrest c Hc) as [Hin | (u & la & lo & Hu & Hrestu)].
      - by apply Hacc'.
      - right. exists u, la, lo. split; [by right|done]. }
    case_bool_decide as Hid; simpl.
    { intros Hrest. apply (Hlift _ Hrest). auto. }
    destruct (latitude usr) as [target_lat|] eqn:Hlat; simpl; [|done].
    destruct (longitude usr) as [target_lon|] eqn:Hlon; simpl; [|done].
    case_bool_decide as Hfar; simpl.
    { intros Hrest. apply (Hlift _ Hrest). auto. }
    intros Hrest. apply (Hlift _ Hrest).
    intros c [Hc | ->%list_elem_of_singleton]%elem_of_app; [by left|].
    right. exists usr, target_lat, target_lon.
    split_and!; try done; [by left|lra].
Qed.

(** The loop raises at the first row other than the viewer's that lacks a
    coordinate, and only then. *)
Lemma discovery_loop_returns viewer lat lon distance_km pool acc :
  (∃ candidates,
     for_each pool (discovery_visit geodesic_km round_ viewer lat lon distance_km) acc
     = Ok candidates) ↔
  ∀ usr, usr ∈ pool → id usr ≠ viewer →
    is_Some (latitude usr) ∧ is_Some (longitude usr).
Proof using Type.
  clear response_has_extend.
  revert acc. induction pool as [|usr pool IH]; intros acc; simpl.
  - split; [|eauto]. intros _ usr Husr. by apply elem_of_nil in Husr.
  - unfold_bind. unfold discovery_visit at 1. unfold_bind.
    assert (Hcons : ∀ P : user_row → Prop,
              (∀ u, u ∈ usr :: pool → P u) ↔ P usr ∧ ∀ u, u ∈ pool → P u).
    { intros P. split.
      - intros H. split; [apply H; left|intros u Hu; apply H; by right].
      - intros [H1 H2] u [->|Hu]%elem_of_cons; auto. }
    rewrite (Hcons (fun u => id u ≠ viewer → is_Some (latitude u) ∧ is_Some (longitude u))).
    case_bool_decide as Hid; simpl.
    { rewrite IH. naive_solver. }
    destruct (latitude usr) as [target_lat|] eqn:Hlat; simpl.
    2: { split; [by intros [? ?]|]. intros [[[? ?] _] _]; done. }
    destruct (longitude usr) as [target_lon|] eqn:Hlon; simpl.
    2: { split; [by intros [? ?]|]. intros [[_ [? ?]] _]; done. }
    case_bool_decide; simpl; rewrite IH; naive_solver.
Qed.

Lemma discovery_loop_raises viewer lat lon distance_km pool acc e :
  for_each pool (discovery_visit geodesic_km round_ viewer lat lon distance_km) acc
  = Raise e →
  e = Exception "float() argument must be a string or a real number, not 'NoneType'".
Proof using Type.
  clear response_has_extend.
  revert acc. induction pool as [|usr pool IH]; intros acc; simpl; [done|].
  unfold_bind. unfold discovery_visit at 1. unfold_bind.
  case_bool_decide; simpl; [apply IH|].
  destruct (latitude usr); simpl; [|by intros [= <-]].
  destruct (longitude usr); simpl; [|by intros [= <-]].
  case_bool_decide; simpl; apply IH.
Qed.

End DiscoveryEntries.

(** The ranked list of the discovery feed, spelled out. *)
Lemma discovery_filtered_unfold (geodesic_km : R * R → R * R → R) (round_ : R → Z → R)
  response_has_extend st viewer user_loc distance_km sort_by filtered :
  discovery_filtered geodesic_km round_ response_has_extend st viewer user_loc
    distance_km sort_by = Ok filtered →
  ∃ pool candidates (kept : discovery_candidate → bool),
    verified_users st = Ok pool ∧
    for_each pool
      (discovery_visit geodesic_km round_ viewer (loc_latitude user_loc)
         (loc_longitude user_loc) distance_km) [] = Ok candidates ∧
    response_has_extend = true ∧
    (∃ x, user_blocks st = Ok x) ∧ (∃ x, matches st = Ok x) ∧
    (∃ x, abuse_reports st = Ok x) ∧
    let scored :=
      map (fun candidate =>
             let '(score, match_pct) :=
               calculate_compatibility_score st viewer (dc_id candidate) in
             {| di_candidate := candidate;
                di_match_percentage := round_ match_pct 2%Z |})
        (List.filter kept candidates) in
    filtered =
    if bool_decide (sort_by = "compatibility"%string)
    then py_sort di_match_percentage true scored
    else py_sort (fun x => dc_distance_km (di_candidate x)) false scored.
Proof.
  unfold discovery_filtered, discovery_matched_rows, select_blocked, select_reported,
    select_user2_of, select_user1_of.
  unfold_bind.
  destruct (verified_users st) as [pool|]; [|done].
  destruct (for_each pool _ []) as [candidates|] eqn:Hloop; [|done].
  destruct (user_blocks st) as [blocks|]; [|done]. simpl.
  destruct (matches st) as [rows|]; [|done]. simpl.
  destruct response_has_extend; [|done].
  destruct (abuse_reports st) as [reports|]; [|done]. simpl.
  intros [= <-]. eexists pool, candidates, _.
  split_and!; eauto.
Qed.

(** When the discovery feed answers with a page. *)
Lemma get_discovery_answered_iff (geodesic_km : R * R → R * R → R) (round_ : R → Z → R)
  response_has_extend st uid distance_km limit offset min_age max_age sort_by :
  (∃ pg, get_discovery geodesic_km round_ response_has_extend st uid
           distance_km limit offset min_age max_age sort_by = Ok pg) ↔
  (∃ user_loc, user_locations st uid = Ok (Some user_loc)) ∧
  (∃ pool, verified_users st = Ok pool ∧
     ∀ usr, usr ∈ pool → id usr ≠ uid →
       is_Some (latitude usr) ∧ is_Some (longitude usr)) ∧
  (∃ x, user_blocks st = Ok x) ∧ (∃ x, matches st = Ok x) ∧
  (∃ x, abuse_reports st = Ok x) ∧
  response_has_extend = true.
Proof.
  split.
  - intros [pg Hpg].
    destruct (get_discovery_ok_located _ _ _ _ _ _ _ _ _ _ _ _ Hpg) as [user_loc Hloc].
    rewrite (get_discovery_located _ _ _ _ _ _ _ _ _ _ _ _ Hloc) in Hpg.
    destruct (discovery_filtered _ _ _ st uid user_loc distance_km sort_by)
      as [filtered|[c d|msg]] eqn:Hf; try done.
    destruct (discovery_filtered_unfold _ _ _ _ _ _ _ _ _ Hf)
      as (pool & candidates & kept & Hpool & Hloop & Hext & Hb & Hm & Hr & _).
    split_and!; eauto.
    exists pool. split; [done|].
    eapply discovery_loop_returns. eauto.
  - intros ([user_loc Hloc] & (pool & Hpool & Hcoords) & [b Hb] & [m Hm] & [r Hr] & ->).
    rewrite (get_discovery_located _ _ _ _ _ _ _ _ _ _ _ _ Hloc).
    apply (discovery_loop_returns geodesic_km round_ uid (loc_latitude user_loc)
             (loc_longitude user_loc) distance_km pool []) in Hcoords as [candidates Hloop].
    unfold discovery_filtered, discovery_matched_rows, select_blocked, select_reported,
      select_user2_of, select_user1_of.
    unfold_bind. rewrite Hpool, Hloop, Hb, Hm, Hr. simpl. eauto.
Qed.

(** X16: a discovery request is answered with a page exactly when the
    viewer has a location on record, the pool read returns rows that,
    the viewer's own apart, all have both coordinates, the reads of the
    blocks, the matches and the reports return, and the response object
    offers [extend] (without it no request is ever answered). *)
Theorem X16_discovery_answered_iff (geodesic_km : R * R → R * R → R) (round_ : R → Z → R)
  response_has_extend st uid distance_km limit offset min_age max_age sort_by :
  (∃ pg, get_discovery geodesic_km round_ response_has_extend st uid
           distance_km limit offset min_age max_age sort_by = Ok pg) ↔
  (∃ user_loc, user_locations st uid = Ok (Some user_loc)) ∧
  (∃ pool, verified_users st = Ok pool ∧
     ∀ usr, usr ∈ pool → id usr ≠ uid →
       is_Some (latitude usr) ∧ is_Some (longitude usr)) ∧
  (∃ x, user_blocks st = Ok x) ∧ (∃ x, matches st = Ok x) ∧
  (∃ x, abuse_reports st = Ok x) ∧
  response_has_extend = true.
Proof. apply get_discovery_answered_iff. Qed.

(** X17: when the viewer has a location and the pool holds a row, not
    the viewer's own, with a null latitude or longitude, the whole
    discovery request fails with HTTP 500 carrying the message of
    [float(None)]. *)
Theorem X17_discovery_null_coordinate_fails (geodesic_km : R * R → R * R → R)
  (round_ : R → Z → R) response_has_extend
  st uid user_loc pool usr distance_km limit offset min_age max_age sort_by :
  user_locations st uid = Ok (Some user_loc) →
  verified_users st = Ok pool →
  usr ∈ pool → id usr ≠ uid →
  latitude usr = None ∨ longitude usr = None →
  get_discovery geodesic_km round_ response_has_extend st uid
    distance_km limit offset min_age max_age sort_by
  = Raise (HTTPException 500
             "float() argument must be a string or a real number, not 'NoneType'").
Proof.
  intros Hloc Hpool Husr Hid Hnull.
  rewrite (get_discovery_located _ _ _ _ _ _ _ _ _ _ _ _ Hloc).
  unfold discovery_filtered. unfold_bind. rewrite Hpool.
  destruct (for_each pool _ []) as [candidates|e] eqn:Hloop.
  - exfalso.
    assert (Hall : ∀ u, u ∈ pool → id u ≠ uid →
              is_Some (latitude u) ∧ is_Some (longitude u)).
    { eapply discovery_loop_returns. eauto. }
    destruct (Hall usr Husr Hid) as [[? Hla] [? Hlo]].
    destruct Hnull; congruence.
  - by rewrite (discovery_loop_raises _ _ _ _ _ _ _ _ _ Hloop).
Qed.


(* ===================================================================== *)
(** ** Pages of the routers side by side *)
(* ===================================================================== *)

(** X18: consecutive pages tile the ranked list: for both routers the
    page of [n] entries at [offset] followed by the page of [m] entries at
    [offset + n] is the page of [n + m] entries at [offset], and all
    three report the same total. *)
Theorem X18_consecutive_pages_tile (geodesic_km : R * R → R * R → R) (round_ : R → Z → R)
  response_has_extend st uid distance_km min_age max_age sort_by (offset n m : Z) :
  (0 <= offset)%Z → (0 <= n)%Z → (0 <= m)%Z →
  (∀ p1 p2 p12,
     get_discovery geodesic_km round_ response_has_extend st uid
       distance_km n offset min_age max_age sort_by = Ok p1 →
     get_discovery geodesic_km round_ response_has_extend st uid
       distance_km m (offset + n) min_age max_age sort_by = Ok p2 →
     get_discovery geodesic_km round_ response_has_extend st uid
       distance_km (n + m) offset min_age max_age sort_by = Ok p12 →
     data p1 ++ data p2 = data p12 ∧ total p1 = total p12 ∧ total p2 = total p12)
  ∧
  (∀ p1 p2 p12,
     get_user_recommendations round_ st uid n offset = Ok p1 →
     get_user_recommendations round_ st uid m (offset + n) = Ok p2 →
     get_user_recommendations round_ st uid (n + m) offset = Ok p12 →
     data p1 ++ data p2 = data p12 ∧ total p1 = total p12 ∧ total p2 = total p12).
Proof.
  intros Ho Hn Hm. split; intros p1 p2 p12 H1 H2 H12.
  - destruct (get_discovery_ok_located _ _ _ _ _ _ _ _ _ _ _ _ H1) as [user_loc Hloc].
    rewrite (get_discovery_located _ _ _ _ _ _ _ _ _ _ _ _ Hloc) in H1.
    rewrite (get_discovery_located _ _ _ _ _ _ _ _ _ _ _ _ Hloc) in H2.
    rewrite (get_discovery_located _ _ _ _ _ _ _ _ _ _ _ _ Hloc) in H12.
    destruct (discovery_filtered _ _ _ st uid user_loc distance_km sort_by)
      as [filtered|[c d|msg]]; try done.
    injection H1 as <-. injection H2 as <-. injection H12 as <-. simpl.
    split; [|done]. by apply py_slice_consecutive.
  - destruct (get_user_recommendations_ok_located _ _ _ _ _ _ H1) as [user_loc Hloc].
    rewrite (get_user_recommendations_located _ _ _ _ _ _ Hloc) in H1.
    rewrite (get_user_recommendations_located _ _ _ _ _ _ Hloc) in H2.
    rewrite (get_user_recommendations_located _ _ _ _ _ _ Hloc) in H12.
    destruct (recommendations_ranked _ st uid user_loc) as [l|[c d|msg]]; try done.
    injection H1 as <-. injection H2 as <-. injection H12 as <-. simpl.
    split; [|done]. by apply py_slice_consecutive.
Qed.

(* ===================================================================== *)
(** ** The service function [get_recommendations] *)
(* ===================================================================== *)

(** The body of the service function, spelled out: the set it excludes
    holds the viewer, the blocked and the reported ids, and nothing else. *)
Lemma get_recommendations_body_unfold st uid (limit offset : Z) l :
  get_recommendations_body st uid limit offset = Ok l →
  (users_single st uid = Ok None ∧ l = []) ∨
  ∃ profile filters pool (E : gset (option string)),
    users_single st uid = Ok (Some profile) ∧
    user_filters st uid = Ok filters ∧ verified_users st = Ok pool ∧
    (∃ x, user_blocks st = Ok x) ∧ (∃ x, matches st = Ok x) ∧
    (∃ x, abuse_reports st = Ok x) ∧
    (∀ x, Some x ∈ E ↔ x = uid ∨ has_blocked st uid x ∨ has_reported st uid x) ∧
    l = py_slice
          (py_sort rec_score true
             (map (fun candidate =>
                     let '(score, match_pct) :=
                       calculate_compatibility_score st uid (id candidate) in
                     {| rec_id := id candidate; rec_score := score;
                        rec_match_percentage := match_pct |})
                (List.filter
                   (fun candidate =>
                      if bool_decide (Some (id candidate) ∈ E) then false
                      else
                        match filters with
                        | Some filters =>
                            if truthy_int (age candidate) then
                              let a := default 0%Z (age candidate) in
                              (default 18 (min_age filters) <=? a)%Z
                              && (a <=? default 50 (max_age filters))%Z
                            else true
                        | None => true
                        end)
                   pool)))
          offset (offset + limit).
Proof.
  unfold get_recommendations_body. unfold_bind.
  destruct (users_single st uid) as [[profile|]|]; simpl; [|intros [= <-]; by left|done].
  destruct (user_filters st uid) as [filters|]; [|done].
  destruct (verified_users st) as [pool|]; [|done].
  destruct (select_blocked st uid) as [blocked|] eqn:Hb; [|done].
  destruct (select_matches st uid) as [matched|] eqn:Hm; [|done].
  destruct (select_reported st uid) as [reported|] eqn:Hr; [|done].
  intros [= <-]. right.
  rewrite (service_matched_ids_empty _ _ _ Hm).
  eexists profile, filters, pool, _.
  split_and!; try done.
  - unfold select_blocked in Hb. unfold_bind. destruct (user_blocks st); [eauto|done].
  - unfold select_matches in Hm. unfold_bind. destruct (matches st); [eauto|done].
  - unfold select_reported in Hr. unfold_bind. destruct (abuse_reports st); [eauto|done].
  - intros x. simpl.
    rewrite !elem_of_union, !elem_of_list_to_set, !list_elem_of_fmap, elem_of_singleton.
    split.
    + intros [[[(y & [= ->] & Hy) | Hnil] | (y & [= ->] & Hy)] | [= ->]];
        eauto using select_blocked_sound, select_reported_sound.
      by apply not_elem_of_empty in Hnil.
    + intros [-> | [Hblk | Hrep]];
        eauto 8 using select_blocked_complete, select_reported_complete.
Qed.

(** X19: every entry returned by the service function stems from a row
    of the pool that is not the viewer's, not blocked and not reported by
    the viewer, and whose age, if the viewer has a filter row and the age
    is non-zero, lies within [min_age, max_age]; the entry carries the
    two outputs of the scorer unrounded. *)
Theorem X19_service_entries st uid (limit offset : Z) item :
  item ∈ get_recommendations st uid limit offset →
  ∃ pool usr,
    verified_users st = Ok pool ∧ usr ∈ pool ∧
    rec_id item = id usr ∧
    id usr ≠ uid ∧ ¬ has_blocked st uid (id usr) ∧ ¬ has_reported st uid (id usr) ∧
    (∀ filters a,
       user_filters st uid = Ok (Some filters) → age usr = Some a → a ≠ 0%Z →
       (default 18 (min_age filters) <= a <= default 50 (max_age filters))%Z) ∧
    rec_score item = fst (calculate_compatibility_score st uid (id usr)) ∧
    rec_match_percentage item = snd (calculate_compatibility_score st uid (id usr)).
Proof.
  unfold get_recommendations.
  destruct (get_recommendations_body st uid limit offset) as [l|] eqn:Hbody;
    [|by intros ?%elem_of_nil].
  destruct (get_recommendations_body_unfold _ _ _ _ _ Hbody)
    as [[_ ->] | (profile & filters & pool & E & _ & Hfilters & Hpool &
                  _ & _ & _ & HE & ->)];
    [by intros ?%elem_of_nil|].
  intros Hitem%py_slice_subset%py_sort_elem_of.
  apply list_elem_of_fmap in Hitem as (usr & -> & [Husr Hkeep]%elem_of_List_filter).
  exists pool, usr.
  case_bool_decide as Hex; [done|]. rewrite HE in Hex.
  split_and!; try done; try naive_solver.
  - by destruct (calculate_compatibility_score st uid (id usr)).
  - intros filters' a Hf Ha Hnz. rewrite Hfilters in Hf. injection Hf as ->.
    rewrite Ha in Hkeep. simpl in Hkeep.
    assert ((a =? 0)%Z = false) as Hz by (by apply Z.eqb_neq).
    rewrite Hz in Hkeep. simpl in Hkeep.
    apply andb_true_iff in Hkeep as [H1%Z.leb_le H2%Z.leb_le]. lia.
  - by destruct (calculate_compatibility_score st uid (id usr)).
  - by destruct (calculate_compatibility_score st uid (id usr)).
Qed.

(** X21: the service function never returns more than [limit] entries,
    for every integer offset (a negative one counts from the end). *)
Theorem X21_service_page_length st uid (limit offset : Z) :
  (0 <= limit)%Z →
  (Z.of_nat (length (get_recommendations st uid limit offset)) <= limit)%Z.
Proof.
  intros Hlimit. unfold get_recommendations.
  destruct (get_recommendations_body st uid limit offset) as [l|] eqn:Hbody;
    [|simpl; lia].
  destruct (get_recommendations_body_unfold _ _ _ _ _ Hbody)
    as [[_ ->] | (? & ? & ? & ? & _ & _ & _ & _ & _ & _ & _ & ->)]; [simpl; lia|].
  by apply py_slice_length_le.
Qed.

(** X22: the service function answers with the empty list, never with
    an exception, when the viewer has no profile or when any of its reads
    raises. *)
Theorem X22_service_swallows_failures st uid (limit offset : Z) :
  users_single st uid = Ok None ∨
  (∃ e, users_single st uid = Raise e) ∨ (∃ e, user_filters st uid = Raise e) ∨
  (∃ e, verified_users st = Raise e) ∨ (∃ e, user_blocks st = Raise e) ∨
  (∃ e, matches st = Raise e) ∨ (∃ e, abuse_reports st = Raise e) →
  get_recommendations st uid limit offset = [].
Proof.
  intros Hfail. unfold get_recommendations.
  destruct (get_recommendations_body st uid limit offset) as [l|] eqn:Hbody; [|done].
  destruct (get_recommendations_body_unfold _ _ _ _ _ Hbody)
    as [[_ ->] | (? & ? & ? & ? & Hu & Hf & Hp & [? Hb] & [? Hm] & [? Hr] & _)]; [done|].
  exfalso. destruct Hfail as [H | [[? H] | [[? H] | [[? H] | [[? H] | [[? H] | [? H]]]]]]];
    congruence.
Qed.

(** X23: the list the service function returns is in non-increasing
    order of [score]. *)
Theorem X23_service_ranked_by_score st uid (limit offset : Z) :
  StronglySorted (fun a b => rec_score b <= rec_score a)
    (get_recommendations st uid limit offset).
Proof.
  unfold get_recommendations.
  destruct (get_recommendations_body st uid limit offset) as [l|] eqn:Hbody;
    [|constructor].
  destruct (get_recommendations_body_unfold _ _ _ _ _ Hbody)
    as [[_ ->] | (? & ? & ? & ? & _ & _ & _ & _ & _ & _ & _ & ->)]; [constructor|].
  apply py_slice_sorted, py_sort_descending.
Qed.

(* ===================================================================== *)
(** ** matches.py *)
(* ===================================================================== *)

(** X24: for a party of the match [get_other_user_id] returns the other
    party, and applying it twice gives the party back; for anybody else it
    returns [user1]. *)
Theorem X24_get_other_user_id_parties (m : match_record) (uid : user_id) :
  (uid = mr_user1 m → get_other_user_id m uid = mr_user2 m) ∧
  (uid = mr_user2 m → uid ≠ mr_user1 m → get_other_user_id m uid = mr_user1 m) ∧
  (uid = mr_user1 m ∨ uid = mr_user2 m →
   get_other_user_id m (get_other_user_id m uid) = uid) ∧
  (uid ≠ mr_user1 m → uid ≠ mr_user2 m → get_other_user_id m uid = mr_user1 m).
Proof.
  unfold get_other_user_id. split_and!.
  - intros ->. by rewrite bool_decide_eq_true_2.
  - intros _ Hne. by rewrite bool_decide_eq_false_2.
  - intros [-> | ->]; repeat case_bool_decide; congruence.
  - intros Hne _. by rewrite bool_decide_eq_false_2.
Qed.

Section MatchesProperties.

Variable geodesic_km : R * R → R * R → R.
Variable round_ : R → Z → R.
Variable str_of_http_exception : Z → string → string.
Variable not_a_mapping : string.
Variable validation_error : string.

Lemma bad_request_outcome {A : Type} (m : outcome A) :
  (∃ a, bad_request str_of_http_exception m = Ok a ∧ m = Ok a) ∨
  (∃ e, bad_request str_of_http_exception m
        = Raise (HTTPException 400 (str_exn str_of_http_exception e)) ∧ m = Raise e).
Proof using Type. destruct m as [a|e]; simpl; eauto. Qed.

(** X25: [get_match] either returns the match or fails with status 400,
    whatever goes wrong; in particular the "Unauthorized" exception it
    raises with status 403 for a viewer who is not a party of the match
    reaches the caller as a 400 carrying the text of that exception. *)
Theorem X25_get_match_fails_with_400_only (ms : MatchesStore) (match_id : string)
  (uid : user_id) :
  ((∃ r, get_match str_of_http_exception not_a_mapping validation_error ms match_id uid
         = Ok r) ∨
   (∃ detail, get_match str_of_http_exception not_a_mapping validation_error ms match_id uid
              = Raise (HTTPException 400 detail))) ∧
  (∀ m, match_single ms match_id = Ok (Some m) →
        uid ≠ mr_user1 m → uid ≠ mr_user2 m →
        get_match str_of_http_exception not_a_mapping validation_error ms match_id uid
        = Raise (HTTPException 400 (str_of_http_exception 403 "Unauthorized"))).
Proof using Type.
  split.
  - unfold get_match.
    match goal with
    | |- context [bad_request _ ?m] =>
        destruct (bad_request_outcome m) as [(a & -> & _) | (e & -> & _)]; eauto
    end.
  - intros m Hm H1 H2. unfold get_match. unfold_bind. rewrite Hm. simpl.
    by rewrite !bool_decide_eq_false_2 by done.
Qed.

(** X26: when [get_match] returns, the match row exists, the viewer is
    one of its two parties, [other_user_id] is the other one, whose user
    row exists with non-null [traits] and [values], and the two scores
    are the outputs of the scorer (not rounded). *)
Theorem X26_get_match_result (ms : MatchesStore) (match_id : string) (uid : user_id) r :
  get_match str_of_http_exception not_a_mapping validation_error ms match_id uid = Ok r →
  ∃ m other,
    match_single ms match_id = Ok (Some m) ∧
    (uid = mr_user1 m ∨ uid = mr_user2 m) ∧
    mresp_other_user_id r = get_other_user_id m uid ∧
    users_single (ms_store ms) (get_other_user_id m uid) = Ok (Some other) ∧
    traits other = Some (ua_traits (mresp_other_user r)) ∧
    values other = Some (ua_values (mresp_other_user r)) ∧
    ua_id (mresp_other_user r) = id other ∧
    mresp_id r = mr_id m ∧ mresp_created_at r = mr_created_at m ∧
    mresp_both_revealed r = py_and (mr_reveal_user1 m) (mr_reveal_user2 m) ∧
    mresp_distance_km r = None ∧
    (mresp_compatibility_score r, mresp_match_percentage r)
    = calculate_compatibility_score (ms_store ms) uid (get_other_user_id m uid).
Proof using Type.
  unfold get_match, bad_request. unfold_bind.
  destruct (match_single ms match_id) as [[m|]|]; simpl; try done.
  destruct (bool_decide (uid = mr_user1 m) || bool_decide (uid = mr_user2 m)) eqn:Hparty;
    simpl; [|done].
  destruct (users_single (ms_store ms) (get_other_user_id m uid)) as [other|] eqn:Hother;
    simpl; [|done].
  destruct (calculate_compatibility_score (ms_store ms) uid (get_other_user_id m uid))
    as [score match_pct] eqn:Hscore.
  unfold UserAnonymous.
  destruct other as [other|]; simpl; [|done].
  destruct (traits other) as [t|] eqn:Ht; simpl; [|done].
  destruct (values other) as [v|] eqn:Hv; simpl; [|done].
  intros [= <-]. exists m, other. simpl. split_and!; try done.
  apply orb_true_iff in Hparty as [?%bool_decide_eq_true | ?%bool_decide_eq_true]; auto.
Qed.

(** What the loop of [get_user_matches] appends. *)
Lemma user_matches_loop_items ms uid my_lat my_lon distance_km rows acc result :
  for_each rows
    (user_matches_visit geodesic_km round_ not_a_mapping validation_error
       ms uid my_lat my_lon distance_km) acc = Ok result →
  ∃ added,
    result = acc ++ added ∧
    sublist (map mresp_id added) (map mr_id rows) ∧
    ∀ item, item ∈ added →
      ∃ m other_location,
        m ∈ rows ∧
        mresp_id item = mr_id m ∧
        mresp_other_user_id item = get_other_user_id m uid ∧
        user_locations (ms_store ms) (get_other_user_id m uid) = Ok (Some other_location) ∧
        geodesic_km (my_lat, my_lon)
          (loc_latitude other_location, loc_longitude other_location)
        <= IZR distance_km ∧
        mresp_distance_km item
        = Some (round_ (geodesic_km (my_lat, my_lon)
                          (loc_latitude other_location, loc_longitude other_location)) 1) ∧
        (mresp_compatibility_score item, mresp_match_percentage item)
        = calculate_compatibility_score (ms_store ms) uid (get_other_user_id m uid).
Proof using Type.
  revert acc. induction rows as [|m rows IH]; intros acc; simpl.
  - intros [= <-]. exists []. rewrite app_nil_r. split_and!; [done|constructor|].
    by intros ? ?%elem_of_nil.
  - unfold_bind. unfold user_matches_visit at 1. unfold_bind.
    destruct (live_users_single ms (get_other_user_id m uid)) as [other_user|]; [|done].
    destruct (user_locations (ms_store ms) (get_other_user_id m uid))
      as [[other_location|]|] eqn:Hloc; simpl; try done.
    case_bool_decide as Hnear; simpl.
    + destruct (calculate_compatibility_score (ms_store ms) uid (get_other_user_id m uid))
        as [score match_pct] eqn:Hscore.
      destruct (UserAnonymous not_a_mapping validation_error other_user) as [anon|];
        simpl; [|done].
      intros Hrest. destruct (IH _ Hrest) as (added & -> & Hsub & Hitems).
      eexists (_ :: added). rewrite <- app_assoc. split_and!; [done|by constructor|].
      intros item [-> | Hitem]%elem_of_cons.
      * exists m, other_location. simpl. split_and!; try done. by left.
      * destruct (Hitems item Hitem) as (m' & loc' & Hm' & Hrest').
        exists m', loc'. split; [by right|done].
    + intros Hrest. destruct (IH _ Hrest) as (added & -> & Hsub & Hitems).
      exists added. split_and!; [done|by constructor|].
      intros item Hitem.
      destruct (Hitems item Hitem) as (m' & loc' & Hm' & Hrest').
      exists m', loc'. split; [by right|done].
Qed.

(** X27: when [get_user_matches] returns, its entries follow the order
    of the viewer's live match rows (their ids form a sublist of the
    rows' ids) and each entry stems from such a row: the viewer is a
    party of the row, [other_user_id] is the other party, whose recorded
    location lies within [distance_km] of the viewer's (geodesic), the
    entry carries that distance rounded to one digit and the scorer's two
    outputs unrounded. *)
Theorem X27_get_user_matches_entries (ms : MatchesStore) (distance_km : Z) (uid : user_id)
  result :
  get_user_matches geodesic_km round_ str_of_http_exception not_a_mapping validation_error
    ms distance_km uid = Ok result →
  ∃ my_location rows,
    user_locations (ms_store ms) uid = Ok (Some my_location) ∧
    select_user_matches ms uid = Ok rows ∧
    sublist (map mresp_id result) (map mr_id rows) ∧
    ∀ item, item ∈ result →
      ∃ m other_location,
        m ∈ rows ∧ mr_deleted_at m = None ∧
        (uid = mr_user1 m ∨ uid = mr_user2 m) ∧
        mresp_id item = mr_id m ∧
        mresp_other_user_id item = get_other_user_id m uid ∧
        user_locations (ms_store ms) (get_other_user_id m uid) = Ok (Some other_location) ∧
        let distance :=
          geodesic_km (loc_latitude my_location, loc_longitude my_location)
            (loc_latitude other_location, loc_longitude other_location) in
        distance <= IZR distance_km ∧
        mresp_distance_km item = Some (round_ distance 1) ∧
        (mresp_compatibility_score item, mresp_match_percentage item)
        = calculate_compatibility_score (ms_store ms) uid (get_other_user_id m uid).
Proof using Type.
  unfold get_user_matches, bad_request. unfold_bind.
  destruct (select_user_matches ms uid) as [rows|] eqn:Hrows; simpl; [|done].
  destruct (user_locations (ms_store ms) uid) as [[my_location|]|]; simpl; try done.
  destruct (for_each rows _ []) as [res|] eqn:Hloop; simpl; [|done].
  intros [= <-].
  destruct (user_matches_loop_items _ _ _ _ _ _ _ _ Hloop) as (added & -> & Hsub & Hitems).
  exists my_location, rows. simpl. split_and!; try done.
  intros item Hitem.
  destruct (Hitems item Hitem) as (m & other_location & Hm & Hrest).
  exists m, other_location. split; [done|].
  unfold select_user_matches in Hrows. unfold_bind.
  destruct (match_records ms) as [all|]; [|done]. injection Hrows as <-.
  apply elem_of_List_filter in Hm as [_ Hp].
  apply andb_true_iff in Hp as [Hside Hd%is_null_true].
  split; [done|]. split; [|done].
  apply orb_true_iff in Hside as [?%bool_decide_eq_true | ?%bool_decide_eq_true]; auto.
Qed.



End MatchesProperties.

(* ===================================================================== *)
(** ** The routers and the exclusion set; the compatibility lookup *)
(* ===================================================================== *)

(** X29: neither router ever returns an id of the viewer's exclusion set
    (the viewer, the ids the viewer blocked or reported, the other party
    of each live match), for every query; on the discovery path this
    holds for non-empty ids. *)
Theorem X29_routers_never_return_excluded (geodesic_km : R * R → R * R → R)
  (round_ : R → Z → R) response_has_extend st viewer x :
  excluded_for st viewer x →
  (∀ distance_km limit offset min_age max_age sort_by pg,
     get_discovery geodesic_km round_ response_has_extend st viewer
       distance_km limit offset min_age max_age sort_by = Ok pg →
     x ≠ ""%string →
     x ∉ map (fun item => dc_id (di_candidate item)) (data pg))
  ∧
  (∀ limit offset pg,
     get_user_recommendations round_ st viewer limit offset = Ok pg →
     x ∉ map ri_id (data pg)).
Proof. apply routers_exclude. Qed.

(* ===================================================================== *)
(** ** The further properties at concrete inputs *)
(* ===================================================================== *)

Lemma X4_witness : calculate_compatibility_score faulty_store "ann" "bea" = (0, 0).
Proof.
  apply (X4_raised_read_returns_zero faulty_store "ann" "bea"
           (mk_user "ann" ["honesty"%string] (Some 10) (Some 20))
           (mk_user "bea" ["honesty"%string] (Some 10) (Some 20))
           (Exception "connection reset")).
  - reflexivity.
  - reflexivity.
  - right; right; left. reflexivity.
Defined.

Lemma X6_witness :
  fields_score 10 lifestyle_fields (Some non_smoker) (Some non_smoker)
  = fields_score 10 lifestyle_fields (Some non_smoker_no_drugs) (Some non_smoker_no_drugs).
Proof.
  assert (H : ∀ f, f ∈ lifestyle_fields → non_smoker !! f = non_smoker_no_drugs !! f).
  { intros f Hf. unfold lifestyle_fields in Hf.
    repeat (apply elem_of_cons in Hf as [-> | Hf]; [vm_compute; reflexivity|]).
    by apply elem_of_nil in Hf. }
  exact (X6_fields_score_reads_compared_fields_only
           non_smoker non_smoker_no_drugs non_smoker non_smoker_no_drugs
           lifestyle_fields 10 H H).
Defined.

Lemma X7_witness :
  fields_score 10 lifestyle_fields (Some blank_lifestyle) (Some blank_lifestyle) = 10.
Proof.
  apply X7_null_fields_match.
  - discriminate.
  - intros f Hf. unfold lifestyle_fields in Hf.
    repeat (apply elem_of_cons in Hf as [-> | Hf]; [split; vm_compute; reflexivity|]).
    by apply elem_of_nil in Hf.
Defined.


Lemma feed_store_answers (round_ : R → Z → R) (limit offset : Z) :
  ∃ pg, get_user_recommendations round_ feed_store "vera" limit offset = Ok pg.
Proof.
  apply get_user_recommendations_answered_iff. split_and!; eexists; reflexivity.
Qed.

Lemma feed_store_first_page (round_ : R → Z → R) :
  ∃ pg item,
    get_user_recommendations round_ feed_store "vera" 20 0 = Ok pg ∧ item ∈ data pg.
Proof.
  assert (Hloc : user_locations feed_store "vera"
                 = Ok (Some {| loc_latitude := 0; loc_longitude := 0 |})) by reflexivity.
  assert (Hranked : ∃ item,
            recommendations_ranked round_ feed_store "vera"
              {| loc_latitude := 0; loc_longitude := 0 |} = Ok [item]).
  { unfold recommendations_ranked. unfold_bind.
    cbn [feed_store matched_store user_filters verified_users].
    unfold select_blocked, select_matches, select_reported. unfold_bind.
    cbn [feed_store matched_store user_blocks matches abuse_reports].
    match goal with
    | |- context [List.filter ?p [mk_user "max" [] None None; mk_user "nia" [] None None]] =>
        replace (List.filter p [mk_user "max" [] None None; mk_user "nia" [] None None])
          with [mk_user "nia" [] None None] by (vm_compute; reflexivity)
    end.
    cbn [map id mk_user].
    destruct (calculate_compatibility_score feed_store "vera" "nia") as [score match_pct].
    eexists. reflexivity. }
  destruct Hranked as (item & Hranked).
  pose proof (get_user_recommendations_located round_ feed_store "vera" _ 20 0 Hloc)
    as Hpg.
  rewrite Hranked in Hpg.
  eexists. exists item. split; [exact Hpg|]. simpl. apply list_elem_of_here.
Qed.

Lemma matched_store_service :
  ∃ item, item ∈ get_recommendations matched_store "vera" 20 0.
Proof.
  unfold get_recommendations, get_recommendations_body. unfold_bind.
  cbn [matched_store users_single user_filters verified_users is_null].
  unfold select_blocked, select_matches, select_reported. unfold_bind.
  cbn [matched_store user_blocks matches abuse_reports].
  match goal with
  | |- context [List.filter ?p [mk_user "max" [] None None]] =>
      replace (List.filter p [mk_user "max" [] None None])
        with [mk_user "max" [] None None] by (vm_compute; reflexivity)
  end.
  cbn [map id mk_user].
  destruct (calculate_compatibility_score matched_store "vera" "max") as [score match_pct].
  eexists. vm_compute. apply list_elem_of_here.
Qed.

Lemma X9_witness :
  ∃ pg, get_user_recommendations no_rounding feed_store "vera" 20 0 = Ok pg ∧
        StronglySorted (fun a b => ri_compatibility_score b <= ri_compatibility_score a)
          (data pg).
Proof.
  destruct (feed_store_answers no_rounding 20 0) as [pg Hpg].
  exists pg. split; [exact Hpg|].
  exact (X9_recommendations_ranked_by_score no_rounding feed_store "vera" 20 0 pg Hpg).
Defined.


Lemma X11_witness :
  ∃ pg item,
    get_user_recommendations no_rounding feed_store "vera" 20 0 = Ok pg ∧
    item ∈ data pg ∧
    ri_compatibility_score item
    = fst (calculate_compatibility_score feed_store "vera" (ri_id item)) ∧
    ri_match_percentage item
    = snd (calculate_compatibility_score feed_store "vera" (ri_id item)) ∧
    ri_compatibility_score item = ri_match_percentage item.
Proof.
  destruct (feed_store_first_page no_rounding) as (pg & item & Hpg & Hitem).
  exists pg, item. split; [exact Hpg|]. split; [exact Hitem|].
  exact (X11_recommendation_entry_scores no_rounding feed_store "vera" 20 0 pg item
           Hpg Hitem).
Defined.


Lemma X17_witness :
  get_discovery flat_distance no_rounding true feed_store "vera" 20 20 0 18 50 "distance"
  = Raise (HTTPException 500
             "float() argument must be a string or a real number, not 'NoneType'").
Proof.
  apply (X17_discovery_null_coordinate_fails flat_distance no_rounding true feed_store
           "vera" {| loc_latitude := 0; loc_longitude := 0 |}
           [mk_user "max" [] None None; mk_user "nia" [] None None]
           (mk_user "nia" [] None None)).
  - reflexivity.
  - reflexivity.
  - apply list_elem_of_further, list_elem_of_here.
  - discriminate.
  - left; reflexivity.
Defined.

Lemma X18_witness :
  ∃ p1 p2 p12,
    get_user_recommendations no_rounding feed_store "vera" 1 0 = Ok p1 ∧
    get_user_recommendations no_rounding feed_store "vera" 1 (0 + 1) = Ok p2 ∧
    get_user_recommendations no_rounding feed_store "vera" (1 + 1) 0 = Ok p12 ∧
    data p1 ++ data p2 = data p12 ∧ total p1 = total p12 ∧ total p2 = total p12.
Proof.
  destruct (feed_store_answers no_rounding 1 0) as [p1 H1].
  destruct (feed_store_answers no_rounding 1 (0 + 1)) as [p2 H2].
  destruct (feed_store_answers no_rounding (1 + 1) 0) as [p12 H12].
  exists p1, p2, p12. split; [exact H1|]. split; [exact H2|]. split; [exact H12|].
  assert (H0 : (0 <= 0)%Z) by lia. assert (H01 : (0 <= 1)%Z) by lia.
  exact (proj2 (X18_consecutive_pages_tile flat_distance no_rounding true feed_store
                  "vera" 20 18 50 "distance" 0 1 1 H0 H01 H01) p1 p2 p12 H1 H2 H12).
Defined.

Lemma X19_witness :
  ∃ item, item ∈ get_recommendations matched_store "vera" 20 0 ∧
    ∃ pool usr,
      verified_users matched_store = Ok pool ∧ usr ∈ pool ∧
      rec_id item = id usr ∧
      id usr ≠ "vera"%string ∧
      ¬ has_blocked matched_store "vera" (id usr) ∧
      ¬ has_reported matched_store "vera" (id usr) ∧
      (∀ filters a,
         user_filters matched_store "vera" = Ok (Some filters) →
         age usr = Some a → a ≠ 0%Z →
         (default 18 (min_age filters) <= a <= default 50 (max_age filters))%Z) ∧
      rec_score item = fst (calculate_compatibility_score matched_store "vera" (id usr)) ∧
      rec_match_percentage item
      = snd (calculate_compatibility_score matched_store "vera" (id usr)).
Proof.
  destruct matched_store_service as [item Hitem].
  exists item. split; [exact Hitem|].
  exact (X19_service_entries matched_store "vera" 20 0 item Hitem).
Defined.

Lemma X21_witness :
  (Z.of_nat (length (get_recommendations matched_store "vera" 20 0)) <= 20)%Z.
Proof. apply (X21_service_page_length matched_store "vera" 20 0). lia. Defined.

Lemma X22_witness : get_recommendations empty_store "vera" 20 0 = [].
Proof.
  apply (X22_service_swallows_failures empty_store "vera" 20 0). left. reflexivity.
Defined.

Lemma couple_match_answers :
  ∃ r, get_match detail_only "no mapping" "validation error" couple_matches "m1" "vera"
       = Ok r.
Proof.
  unfold get_match, bad_request. unfold_bind.
  cbn [couple_matches match_single String.eqb Ascii.eqb Bool.eqb subscript].
  rewrite (bool_decide_eq_true_2 ("vera"%string = mr_user1 vera_max)) by reflexivity.
  cbn [orb negb ms_store users_single couple_matches].
  destruct (calculate_compatibility_score _ _ _) as [score match_pct].
  eexists. reflexivity.
Qed.

Lemma couple_matches_answer :
  ∃ result,
    get_user_matches flat_distance no_rounding detail_only "no mapping" "validation error"
      couple_matches 20 "vera" = Ok result.
Proof.
  unfold get_user_matches, bad_request, select_user_matches. unfold_bind.
  cbn [couple_matches match_records ms_store user_locations subscript].
  match goal with
  | |- context [List.filter ?p [vera_max]] =>
      replace (List.filter p [vera_max]) with [vera_max] by (vm_compute; reflexivity)
  end.
  cbn [for_each]. unfold user_matches_visit. unfold_bind.
  cbn [couple_matches live_users_single ms_store user_locations subscript].
  rewrite bool_decide_eq_true_2 by (unfold flat_distance; lra).
  destruct (calculate_compatibility_score _ _ _) as [score match_pct].
  eexists. reflexivity.
Qed.

Lemma X26_witness :
  ∃ r,
    get_match detail_only "no mapping" "validation error" couple_matches "m1" "vera"
    = Ok r ∧
    mresp_other_user_id r = "max"%string.
Proof.
  destruct couple_match_answers as [r Hr].
  exists r. split; [exact Hr|].
  destruct (X26_get_match_result detail_only "no mapping" "validation error"
              couple_matches "m1" "vera" r Hr) as (m & other & Hm & _ & Hid & _).
  injection Hm as <-. exact Hid.
Defined.

Lemma X27_witness :
  ∃ result,
    get_user_matches flat_distance no_rounding detail_only "no mapping" "validation error"
      couple_matches 20 "vera" = Ok result ∧
    sublist (map mresp_id result) ["m1"%string].
Proof.
  destruct couple_matches_answer as [result Hresult].
  exists result. split; [exact Hresult|].
  destruct (X27_get_user_matches_entries flat_distance no_rounding detail_only
              "no mapping" "validation error" couple_matches 20 "vera" result Hresult)
    as (my_location & rows & _ & Hrows & Hsub & _).
  injection Hrows as <-. exact Hsub.
Defined.


Lemma X29_witness :
  excluded_for feed_store "vera" "max" ∧
  ∀ limit offset pg,
    get_user_recommendations no_rounding feed_store "vera" limit offset = Ok pg →
    "max"%string ∉ map ri_id (data pg).
Proof.
  assert (Hex : excluded_for feed_store "vera" "max").
  { right; right; left.
    exists {| user1 := "vera"; user2 := "max"; match_deleted_at := None |}.
    split; [apply list_elem_of_here|]. split; [done|]. by left. }
  split; [exact Hex|].
  exact (proj2 (X29_routers_never_return_excluded flat_distance no_rounding true
                  feed_store "vera" "max" Hex)).
Defined.

(* ===================================================================== *)
(** ** Behind the database client *)
(* ===================================================================== *)

Section ClientProperties.

Variable single_error : nat → string.

(** A read by [.single()] returns exactly when one row is selected. *)
Lemma single_returns {A : Type} (rows : list A) (x : option A) :
  single single_error rows = Ok x ↔ ∃ row, rows = [row] ∧ x = Some row.
Proof.
  unfold single. destruct rows as [|row [|row' rows]]; split;
    try done; try by intros (? & [=] & _).
  - intros [= <-]. eauto.
  - by intros (? & [= <-] & ->).
Qed.

Lemma single_no_row {A : Type} :
  single single_error (@nil A) = Raise (Exception (single_error 0%nat)).
Proof. reflexivity. Qed.

(** With both user rows on record, a user without a lifestyle row or
    without a goals row zeroes the whole score. *)
Lemma absent_row_zeroes_score (db : Database) (u1 u2 : user_id) p1 p2 :
  db_users db u1 = [p1] → db_users db u2 = [p2] →
  db_lifestyle db u1 = [] ∨ db_lifestyle db u2 = [] ∨
  db_goals db u1 = [] ∨ db_goals db u2 = [] →
  calculate_compatibility_score (store_of single_error db) u1 u2 = (0, 0).
Proof.
  intros Hp1 Hp2 Habsent.
  apply (raised_read_zeroes_score _ u1 u2 p1 p2 (Exception (single_error 0%nat))).
  - simpl. by rewrite Hp1.
  - simpl. by rewrite Hp2.
  - simpl. destruct Habsent as [-> | [-> | [-> | ->]]]; auto 10.
Qed.

End ClientProperties.

(** Records that agree on the compared fields and hold one of them get
    the full weight. *)
Lemma fields_score_agree W fields (r1 r2 : prefs_row) :
  (∀ f, f ∈ fields → r1 !! f = r2 !! f) →
  (∃ f, f ∈ fields ∧ is_Some (r1 !! f)) →
  fields_score W fields (Some r1) (Some r2) = W.
Proof.
  intros Hagree Hsome.
  rewrite fields_score_spec.
  rewrite (spec_field_equality_agree r1 r1 r2 r1 fields W); [|done|].
  - rewrite <- fields_score_spec. by apply fields_score_same.
  - intros f Hf. symmetry. by apply Hagree.
Qed.

Lemma twin_rows_agree (u1 u2 : user_id) :
  (∀ f, f ∈ lifestyle_fields → lifestyle_row_of u1 !! f = lifestyle_row_of u2 !! f) ∧
  (∀ f, f ∈ goals_fields → goals_row_of u1 !! f = goals_row_of u2 !! f).
Proof.
  split; intros f Hf.
  - unfold lifestyle_fields in Hf. unfold lifestyle_row_of.
    repeat (apply elem_of_cons in Hf as [-> | Hf];
            [by rewrite !lookup_insert_ne, ?lookup_insert_eq, ?lookup_singleton_eq,
                        ?lookup_singleton_ne by done|]).
    by apply elem_of_nil in Hf.
  - unfold goals_fields in Hf. unfold goals_row_of.
    repeat (apply elem_of_cons in Hf as [-> | Hf];
            [by rewrite !lookup_insert_ne, ?lookup_insert_eq, ?lookup_singleton_eq,
                        ?lookup_singleton_ne by done|]).
    by apply elem_of_nil in Hf.
Qed.

Lemma twin_rows_hold (u : user_id) :
  (∃ f, f ∈ lifestyle_fields ∧ is_Some (lifestyle_row_of u !! f)) ∧
  (∃ f, f ∈ goals_fields ∧ is_Some (goals_row_of u !! f)).
Proof.
  split.
  - exists "smoking"%string. split; [apply list_elem_of_here|].
    unfold lifestyle_row_of. rewrite lookup_insert_ne by done.
    rewrite lookup_singleton_eq. eauto.
  - exists "wants_kids"%string. split; [apply list_elem_of_here|].
    unfold goals_row_of. rewrite lookup_insert_ne by done.
    rewrite lookup_singleton_eq. eauto.
Qed.

Lemma twins_db_reads (single_error : nat → string) (u : user_id) :
  reads (store_of single_error twins_db) u (twin_rows u).
Proof. repeat split; reflexivity. Qed.

Section ClientRouters.

Variable geodesic_km : R * R → R * R → R.
Variable round_ : R → Z → R.
Variable single_error : nat → string.

(** A viewer without a location row: the read of line 24 raises, the
    test of line 25 is not reached, and the last handler answers. *)
Lemma get_discovery_no_location_row response_has_extend db uid
  distance_km limit offset min_age max_age sort_by :
  db_locations db uid = [] →
  get_discovery geodesic_km round_ response_has_extend (store_of single_error db) uid
    distance_km limit offset min_age max_age sort_by
  = Raise (HTTPException 500 (single_error 0%nat)).
Proof.
  intros Hloc. unfold get_discovery, http_errors. unfold_bind.
  simpl. by rewrite Hloc.
Qed.

Lemma get_user_recommendations_no_location_row db uid limit offset :
  db_locations db uid = [] →
  get_user_recommendations round_ (store_of single_error db) uid limit offset
  = Raise (HTTPException 500 (single_error 0%nat)).
Proof.
  intros Hloc. unfold get_user_recommendations, http_errors. unfold_bind.
  simpl. by rewrite Hloc.
Qed.

(** With a response object that has no [extend], a discovery request
    that gets as far as line 63 fails there. *)
Lemma get_discovery_without_extend st uid user_loc pool blocks rows
  distance_km limit offset min_age max_age sort_by :
  user_locations st uid = Ok (Some user_loc) →
  verified_users st = Ok pool →
  (∀ usr, usr ∈ pool → id usr ≠ uid →
     is_Some (latitude usr) ∧ is_Some (longitude usr)) →
  user_blocks st = Ok blocks → matches st = Ok rows →
  get_discovery geodesic_km round_ false st uid
    distance_km limit offset min_age max_age sort_by
  = Raise (HTTPException 500 "'APIResponse' object has no attribute 'extend'").
Proof.
  intros Hloc Hpool Hcoords Hblocks Hrows.
  rewrite (get_discovery_located _ _ _ _ _ _ _ _ _ _ _ _ Hloc).
  unfold discovery_filtered. unfold_bind. rewrite Hpool.
  destruct (proj2 (discovery_loop_returns geodesic_km round_ uid (loc_latitude user_loc)
                     (loc_longitude user_loc) distance_km pool []) Hcoords)
    as [candidates ->].
  unfold select_blocked, discovery_matched_rows, select_user2_of. unfold_bind.
  by rewrite Hblocks, Hrows.
Qed.

End ClientRouters.

Lemma feed_db_answers (round_ : R → Z → R) (single_error : nat → string)
  (limit offset : Z) :
  ∃ pg, get_user_recommendations round_ (store_of single_error feed_db) "vera"
          limit offset = Ok pg.
Proof.
  apply get_user_recommendations_answered_iff. split_and!; eexists; reflexivity.
Qed.

(* ===================================================================== *)
(** ** The scorer and the routers behind the database client *)
(* ===================================================================== *)

(** C1: on the scenario of the specification ("V" and "U" with profile,
    interest and location rows, and no lifestyle or goals row) the scorer
    returns (0, 0): the lifestyle read of line 75 raises and the handler
    of line 117 discards the factors computed so far, which by the
    formulas of the specification sum to 125/3 (41.67) or more. *)
Theorem C1_scenario_scores_zero (single_error : nat → string) :
  let st := store_of single_error scenario_db in
  (∃ p, users_single st "V" = Ok (Some p)) ∧ (∃ p, users_single st "U" = Ok (Some p)) ∧
  calculate_compatibility_score st "V" "U" = (0, 0) ∧
  125 / 3 <=
    spec_set_overlap (list_to_set ["A"; "B"; "C"]%string) (list_to_set ["A"; "B"]%string) 40
    + spec_set_overlap (list_to_set ["X"; "Y"]%string) (list_to_set ["X"]%string) 30
    + spec_location_proximity (recorded_coordinate st "V") (recorded_coordinate st "U")
    + 0 + 0.
Proof.
  cbv zeta. split; [eexists; reflexivity|]. split; [eexists; reflexivity|]. split.
  - apply (absent_row_zeroes_score single_error scenario_db "V" "U"
             (mk_user "V" ["X"; "Y"]%string None None)
             (mk_user "U" ["X"]%string None None)); [reflexivity|reflexivity|].
    left. reflexivity.
  - rewrite <- !overlap_score_spec.
    destruct scenario_set_scores as [-> ->].
    assert (0 <= spec_location_proximity
                   (recorded_coordinate (store_of single_error scenario_db) "V")
                   (recorded_coordinate (store_of single_error scenario_db) "U")).
    { simpl. apply Rmax_l. }
    lra.
Qed.

(** C3: "ann" and "bea" have the same interest, the same value, the same
    place and lifestyle rows that agree, and no goals row.  The goals
    read of line 94 raises, and the score is (0, 0), not the 95 points of
    the four other factors. *)
Theorem C3_absent_goals_row_zeroes_whole_score (single_error : nat → string) :
  let st := store_of single_error no_goals_db in
  user_goals st "ann" = Raise (Exception (single_error 0%nat)) ∧
  calculate_compatibility_score st "ann" "bea" = (0, 0) ∧
  overlap_score 40 (list_to_set ["hiking"%string]) (list_to_set ["hiking"%string])
  + overlap_score 30 (values_set (mk_user "ann" ["honesty"%string] (Some 10) (Some 20)))
      (values_set (mk_user "bea" ["honesty"%string] (Some 10) (Some 20)))
  + location_score_of (recorded_coordinate st "ann") (recorded_coordinate st "bea")
  + fields_score 10 lifestyle_fields
      (Some (lifestyle_row_of "ann")) (Some (lifestyle_row_of "bea"))
  = 95.
Proof.
  cbv zeta. split; [reflexivity|]. split.
  - apply (absent_row_zeroes_score single_error no_goals_db "ann" "bea"
             (mk_user "ann" ["honesty"%string] (Some 10) (Some 20))
             (mk_user "bea" ["honesty"%string] (Some 10) (Some 20)));
      [reflexivity|reflexivity|].
    right; right; left. reflexivity.
  - rewrite !overlap_score_self.
    2: { apply (non_empty_inhabited_L "honesty"%string). unfold values_set. simpl.
         set_solver. }
    2: { apply (non_empty_inhabited_L "hiking"%string). set_solver. }
    rewrite (fields_score_agree 10 lifestyle_fields _ _
               (proj1 (twin_rows_agree "ann" "bea")) (proj1 (twin_rows_hold "ann"))).
    change (recorded_coordinate (store_of single_error no_goals_db) "ann")
      with (Some {| loc_latitude := 10; loc_longitude := 20 |}).
    change (recorded_coordinate (store_of single_error no_goals_db) "bea")
      with (Some {| loc_latitude := 10; loc_longitude := 20 |}).
    rewrite location_score_of_same. lra.
Qed.

(** C4: a discovery request by a viewer without a location row is
    answered with status 500 and the text of the client's error, for
    every query: not with the 400 "User location not set" of line 26. *)
Theorem C4_discovery_without_location_row_answers_500
  (geodesic_km : R * R → R * R → R) (round_ : R → Z → R) (response_has_extend : bool)
  (single_error : nat → string)
  (distance_km limit offset min_age max_age : Z) (sort_by : string) :
  user_locations (store_of single_error unlocated_db) "vera"
  = Raise (Exception (single_error 0%nat)) ∧
  get_discovery geodesic_km round_ response_has_extend
    (store_of single_error unlocated_db) "vera"
    distance_km limit offset min_age max_age sort_by
  = Raise (HTTPException 500 (single_error 0%nat)).
Proof.
  split; [reflexivity|]. by apply get_discovery_no_location_row.
Qed.

(** C10: a recommendations request by a viewer without a location row is
    answered with status 500 and the text of the client's error, for
    every limit and offset: not with the 400 "Location not set..." of
    line 26. *)
Theorem C10_recommendations_without_location_row_answer_500
  (round_ : R → Z → R) (single_error : nat → string) (limit offset : Z) :
  user_locations (store_of single_error unlocated_db) "vera"
  = Raise (Exception (single_error 0%nat)) ∧
  get_user_recommendations round_ (store_of single_error unlocated_db) "vera" limit offset
  = Raise (HTTPException 500 (single_error 0%nat)).
Proof.
  split; [reflexivity|]. by apply get_user_recommendations_no_location_row.
Qed.

(** C8: with the response object of the client, which has no [extend],
    the discovery request of a located viewer over a pool with
    coordinates is answered with status 500, for every radius, limit,
    offset and sort key: no page is returned, neither a full one nor an
    empty one. *)
Theorem C8_discovery_answers_500_instead_of_a_page
  (geodesic_km : R * R → R * R → R) (round_ : R → Z → R) (single_error : nat → string)
  (distance_km limit offset min_age max_age : Z) (sort_by : string) :
  get_discovery geodesic_km round_ false (store_of single_error feed_db) "vera"
    distance_km limit offset min_age max_age sort_by
  = Raise (HTTPException 500 "'APIResponse' object has no attribute 'extend'").
Proof.
  apply (get_discovery_without_extend geodesic_km round_ (store_of single_error feed_db)
           "vera" {| loc_latitude := 50; loc_longitude := 8 |}
           (db_verified feed_db) [] (db_matches feed_db)); try reflexivity.
  intros usr Husr _. simpl in Husr.
  apply elem_of_cons in Husr as [-> | Husr]; [split; eexists; reflexivity|].
  apply list_elem_of_singleton in Husr as ->. split; eexists; reflexivity.
Qed.

(** C5 (amended): two users with the same non-empty interest set, the same
    non-empty values set, lifestyle rows that agree on the four compared
    fields and hold at least one of them, goals rows that agree on the
    three compared fields and hold at least one of them, and one
    coordinate recorded for both, score 100 in both outputs. *)
Theorem C5_identical_users_score_100 st u1 u2 d1 d2 c (l1 l2 g1 g2 : prefs_row) :
  reads st u1 d1 → reads st u2 d2 →
  (list_to_set (ur_interests d1) : gset string) = list_to_set (ur_interests d2) →
  ur_interests d1 ≠ [] →
  values_set (ur_profile d1) = values_set (ur_profile d2) →
  values_set (ur_profile d1) ≠ ∅ →
  ur_lifestyle d1 = Some l1 → ur_lifestyle d2 = Some l2 →
  (∀ f, f ∈ lifestyle_fields → l1 !! f = l2 !! f) →
  (∃ f, f ∈ lifestyle_fields ∧ is_Some (l1 !! f)) →
  ur_goals d1 = Some g1 → ur_goals d2 = Some g2 →
  (∀ f, f ∈ goals_fields → g1 !! f = g2 !! f) →
  (∃ f, f ∈ goals_fields ∧ is_Some (g1 !! f)) →
  user_locations st u1 = Ok (Some c) → user_locations st u2 = Ok (Some c) →
  calculate_compatibility_score st u1 u2 = (100, 100).
Proof.
  intros H1 H2 Hi Hine Hv Hvne Hl1 Hl2 Hla Hlf Hg1 Hg2 Hga Hgf Hc1 Hc2.
  rewrite (calculate_compatibility_score_reads _ _ _ _ _ H1 H2). cbv zeta.
  unfold recorded_coordinate. rewrite Hc1, Hc2, location_score_of_same.
  rewrite Hl1, Hl2, Hg1, Hg2, !fields_score_agree by done.
  rewrite <- Hi, <- Hv.
  assert (Hne : (list_to_set (ur_interests d1) : gset string) ≠ ∅).
  { destruct (ur_interests d1) as [|i l]; [done|]. set_solver. }
  rewrite !overlap_score_self by done.
  f_equal; lra.
Qed.

Lemma C5_witness :
  lifestyle_row_of "ann" ≠ lifestyle_row_of "bea" ∧
  calculate_compatibility_score (store_of rows_found twins_db) "ann" "bea" = (100, 100).
Proof.
  split.
  - intros Heq.
    assert (H : lifestyle_row_of "ann" !! "user_id"%string
                = lifestyle_row_of "bea" !! "user_id"%string) by (by rewrite Heq).
    unfold lifestyle_row_of in H. rewrite !lookup_insert_eq in H. discriminate H.
  - apply (C5_identical_users_score_100 (store_of rows_found twins_db) "ann" "bea"
             (twin_rows "ann") (twin_rows "bea")
             {| loc_latitude := 10; loc_longitude := 20 |}
             (lifestyle_row_of "ann") (lifestyle_row_of "bea")
             (goals_row_of "ann") (goals_row_of "bea")).
    + apply twins_db_reads.
    + apply twins_db_reads.
    + reflexivity.
    + discriminate.
    + reflexivity.
    + apply (non_empty_inhabited_L "honesty"%string). unfold values_set. simpl.
      set_solver.
    + reflexivity.
    + reflexivity.
    + apply twin_rows_agree.
    + apply twin_rows_hold.
    + reflexivity.
    + reflexivity.
    + apply twin_rows_agree.
    + apply twin_rows_hold.
    + reflexivity.
    + reflexivity.
Defined.

(* ===================================================================== *)
(** ** Further properties behind the database client *)
(* ===================================================================== *)

(** X12: the recommendations router answers with a page only if the
    viewer has a location on record and the filters, pool, blocks,
    matches and reports reads were all answered. *)
Theorem X12_recommendations_page_requires_reads (round_ : R → Z → R)
  st uid limit offset pg :
  get_user_recommendations round_ st uid limit offset = Ok pg →
  (∃ user_loc, user_locations st uid = Ok (Some user_loc)) ∧
  (∃ x, user_filters st uid = Ok x) ∧ (∃ x, verified_users st = Ok x) ∧
  (∃ x, user_blocks st = Ok x) ∧ (∃ x, matches st = Ok x) ∧
  (∃ x, abuse_reports st = Ok x).
Proof.
  intros Hpg. apply (get_user_recommendations_answered_iff round_ st uid limit offset).
  eauto.
Qed.

(** X15: when a recommendations request (with [limit] and [offset] within
    the declared bounds) is answered with a page, [total] is the number of
    pool rows that survive exclusion and the saved filters, which is the
    length of the ranked list before slicing; the page is the slice
    [offset : offset + limit] of that list, so it has
    min(limit, total - offset) entries if offset < total and none
    otherwise; and the same request with any other offset is answered
    with a page as well, with the same total. *)
Theorem X15_recommendations_pagination (round_ : R → Z → R) st uid limit offset pg :
  page_query_ok limit offset →
  get_user_recommendations round_ st uid limit offset = Ok pg →
  ∃ user_loc pool filters_resp E recommendations,
    user_locations st uid = Ok (Some user_loc) ∧
    verified_users st = Ok pool ∧
    user_filters st uid = Ok filters_resp ∧
    is_exclusion_set st uid E ∧
    recommendations_ranked round_ st uid user_loc = Ok recommendations ∧
    total pg =
      Z.of_nat (length (List.filter
                          (recommendation_keeps E (default no_filters filters_resp)
                             (loc_latitude user_loc) (loc_longitude user_loc))
                          pool)) ∧
    total pg = Z.of_nat (length recommendations) ∧
    data pg = py_slice recommendations offset (offset + limit) ∧
    ((offset < total pg)%Z →
     Z.of_nat (length (data pg)) = Z.min limit (total pg - offset)) ∧
    ((total pg <= offset)%Z → data pg = []) ∧
    ∀ offset', (0 <= offset')%Z →
      ∃ pg',
        get_user_recommendations round_ st uid limit offset' = Ok pg' ∧
        total pg' = total pg ∧
        ((total pg <= offset')%Z → data pg' = []).
Proof.
  intros [[Hlimit _] Hoffset] Hpg.
  destruct (get_user_recommendations_ok_located _ _ _ _ _ _ Hpg) as [user_loc Hloc].
  rewrite (get_user_recommendations_located _ _ _ _ _ _ Hloc) in Hpg.
  destruct (recommendations_ranked _ st uid user_loc)
    as [recommendations|[c d|msg]] eqn:Hf; try done.
  injection Hpg as <-. simpl.
  destruct (recommendations_ranked_survivors _ _ _ _ _ Hf)
    as (pool & filters_resp & E & Hpool & Hfilters & HE & Hperm).
  exists user_loc, pool, filters_resp, E, recommendations. split_and!; try done.
  - intros x _. apply HE.
  - apply Permutation_length in Hperm. rewrite !length_map in Hperm. by rewrite Hperm.
  - intros Hlt. apply py_slice_length; lia.
  - intros Hge. apply py_slice_beyond; lia.
  - intros offset' Hoffset'. eexists. split.
    { rewrite (get_user_recommendations_located _ _ _ _ _ _ Hloc), Hf. reflexivity. }
    simpl. split; [done|]. intros Hge. apply py_slice_beyond; lia.
Qed.

(** X20: a viewer without a saved filter row gets nothing from the service
    function, whatever the pool is: the read of line 149 raises and the
    handler of line 200 returns the empty list, so the defaults of
    lines 175-178 are never applied. *)
Theorem X20_service_needs_filter_row (single_error : nat → string) db uid
  (limit offset : Z) :
  db_filters db uid = [] →
  get_recommendations (store_of single_error db) uid limit offset = [].
Proof.
  intros Hnone. unfold get_recommendations.
  destruct (get_recommendations_body _ uid limit offset) as [l|] eqn:Hbody; [|done].
  destruct (get_recommendations_body_unfold _ _ _ _ _ Hbody)
    as [[_ ->] | (? & ? & ? & ? & _ & Hf & _)]; [done|].
  simpl in Hf. rewrite Hnone in Hf. discriminate Hf.
Qed.

(** X30: the compatibility lookup never returns a score and never answers
    404.  The two [.single()] reads raise unless exactly one row is
    selected: a missing candidate gives 500, a candidate with exactly one
    block row selected gives 403, and a candidate with none (or
    several) gives 500. *)
Theorem X30_compatibility_lookup_never_returns (round_ : R → Z → R)
  (single_error : nat → string) (probe_rows : user_id → user_id → list block_row)
  db candidate_id uid :
  let answer :=
    get_compatibility_with_user round_
      (fun viewer candidate => single single_error (probe_rows viewer candidate))
      (store_of single_error db) candidate_id uid in
  (answer = Raise (HTTPException 403 "Cannot view compatibility") ∧
   length (db_users db candidate_id) = 1%nat ∧
   length (probe_rows uid candidate_id) = 1%nat)
  ∨
  (∃ n, n ≠ 1%nat ∧ answer = Raise (HTTPException 500 (single_error n)) ∧
        (length (db_users db candidate_id) = n ∨
         length (probe_rows uid candidate_id) = n)).
Proof.
  cbv zeta. unfold get_compatibility_with_user, http_errors. unfold_bind. simpl.
  destruct (db_users db candidate_id) as [|row [|row' rows]] eqn:Hu; simpl.
  - right. exists 0%nat. auto.
  - destruct (probe_rows uid candidate_id) as [|b [|b' bs]] eqn:Hb; simpl.
    + right. exists 0%nat. auto.
    + left. auto.
    + right. exists (S (S (length bs))). auto.
  - right. exists (S (S (length rows))). auto.
Qed.

(* ===================================================================== *)
(** ** The properties behind the client at concrete inputs *)
(* ===================================================================== *)

Lemma X12_witness :
  ∃ pg,
    get_user_recommendations no_rounding (store_of rows_found feed_db) "vera" 20 0 = Ok pg ∧
    (∃ user_loc, user_locations (store_of rows_found feed_db) "vera" = Ok (Some user_loc)) ∧
    (∃ x, user_filters (store_of rows_found feed_db) "vera" = Ok x).
Proof.
  destruct (feed_db_answers no_rounding rows_found 20 0) as [pg Hpg].
  exists pg. split; [exact Hpg|].
  destruct (X12_recommendations_page_requires_reads no_rounding
              (store_of rows_found feed_db) "vera" 20 0 pg Hpg) as (Hloc & Hfilters & _).
  split; [exact Hloc|exact Hfilters].
Defined.

Lemma X14_witness :
  calculate_compatibility_score (store_of rows_found twins_db) "ann" "bea" =
  (let interest_score :=
     spec_set_overlap (list_to_set ["hiking"%string]) (list_to_set ["hiking"%string]) 40 in
   let values_score :=
     spec_set_overlap (list_to_set ["honesty"%string]) (list_to_set ["honesty"%string]) 30 in
   let location_score :=
     spec_location_proximity
       (Some {| loc_latitude := 10; loc_longitude := 20 |})
       (Some {| loc_latitude := 10; loc_longitude := 20 |}) in
   let lifestyle_score :=
     spec_field_equality (Some (lifestyle_row_of "ann")) (Some (lifestyle_row_of "bea"))
       ["smoking"; "drinking"; "diet"; "social_lifestyle"]%string 10 in
   let goals_score :=
     spec_field_equality (Some (goals_row_of "ann")) (Some (goals_row_of "bea"))
       ["wants_kids"; "marriage_timeline"; "relationship_type"]%string 5 in
   let total := interest_score + values_score + location_score
                + lifestyle_score + goals_score in
   (total, total)).
Proof.
  exact (X14_score_is_sum_of_five_factors (store_of rows_found twins_db) "ann" "bea"
           (twin_rows "ann") (twin_rows "bea")
           (twins_db_reads rows_found "ann") (twins_db_reads rows_found "bea")).
Defined.

Lemma X15_witness :
  page_query_ok 20 0 ∧
  ∃ pg,
    get_user_recommendations no_rounding (store_of rows_found feed_db) "vera" 20 0 = Ok pg ∧
    ((total pg <= 0)%Z → data pg = []).
Proof.
  assert (Hq : page_query_ok 20 0) by (unfold page_query_ok; lia).
  split; [exact Hq|].
  destruct (feed_db_answers no_rounding rows_found 20 0) as [pg Hpg].
  exists pg. split; [exact Hpg|].
  destruct (X15_recommendations_pagination no_rounding (store_of rows_found feed_db)
              "vera" 20 0 pg Hq Hpg)
    as (? & ? & ? & ? & ? & _ & _ & _ & _ & _ & _ & _ & _ & _ & Hbeyond & _).
  exact Hbeyond.
Defined.

Lemma X20_witness :
  db_filters scenario_db "V" = [] ∧
  get_recommendations (store_of rows_found scenario_db) "V" 20 0 = [].
Proof.
  split; [reflexivity|].
  apply (X20_service_needs_filter_row rows_found scenario_db "V" 20 0). reflexivity.
Defined.
